(** * The embedded-interpreter bridge of neuropod ([python_bridge.cc])

    A shallow embedding of [neuropod/backends/python_bridge/python_bridge.cc]:
    the process environment, the dynamic loader, the interpreter lock and the
    interpreter-resident objects are explicit state; every function of the
    file is a computation in a small state, exception and trace monad. *)

From Stdlib Require Import Ascii String.
From stdpp Require Import gmap strings list fin_maps.

(** ** C strings *)

(** [std::string::c_str()] handed to a C-string consumer ([setenv], the
    [py::dict] item accessor): the consumer reads up to the first NUL byte. *)
Fixpoint c_str (s : string) : string :=
  match s with
  | EmptyString => EmptyString
  | String c s' => if Ascii.eqb c "000"%char then EmptyString else String c (c_str s')
  end.

(** A string that survives the passage through C-string unchanged. *)
Definition nul_free (s : string) : bool := String.eqb (c_str s) s.

(** ** Outcomes of a C++ computation *)

Inductive Exception :=
| RuntimeError (what : string)   (* std::runtime_error, thrown by NEUROPOD_ERROR *)
| PythonError (what : string).   (* py::error_already_set, py::cast_error *)

Inductive Outcome (A : Type) :=
| Ok (a : A)                     (* normal return *)
| Throw (e : Exception)          (* a C++ exception leaves the function *)
| Fault (why : string).          (* the process is lost: undefined behaviour, abort() *)
Arguments Ok {A} a.
Arguments Throw {A} e.
Arguments Fault {A} why.

(** ** What the file takes from outside

    The interpreter (CPython through pybind11), the tensor bindings of
    [neuropod/bindings/python_bindings.hh], the backend base class with its
    loader and allocator, and the build configuration. *)
Class External := {
  (* build configuration *)
  is_apple : bool;                       (* __APPLE__ *)
  PYTHON_VERSION : string;               (* STR(PYTHON_VERSION) *)
  (* interpreter *)
  py_object : Type;                      (* a reference to an interpreter object *)
  ndarray : Type;                        (* a numpy array living in the interpreter *)
  py_state : Type;                       (* everything else the interpreter remembers *)
  py_can_start : gmap string string → bool;
    (* can Py_InitializeEx start in this environment (PYTHONHOME a Python prefix)? *)
  py_import_attr : string → string → py_state → (Outcome py_object * py_state)%type;
  py_attr : py_object → string → py_state → (Outcome py_object * py_state)%type;
  py_call_path : py_object → string → py_state → (Outcome py_object * py_state)%type;
  py_call_dict : py_object → gmap string ndarray → py_state → (Outcome py_object * py_state)%type;
  py_cast_dict : py_object → py_state → (Outcome (gmap string ndarray) * py_state)%type;
  py_str : string → Outcome string;      (* py::str from a C string *)
  (* tensors, python_bindings.hh *)
  NeuropodValue : Type;
  NeuropodTensor : Type;
  Allocator : Type;
  dynamic_pointer_cast : NeuropodValue → option NeuropodTensor;
  tensor_to_numpy : option NeuropodTensor → py_state → (Outcome ndarray * py_state)%type;
  tensor_from_numpy : Allocator → string → ndarray → Outcome NeuropodValue;
  (* backend base class *)
  RuntimeOptions : Type;
  Loader : Type;
  backend_base : string → Outcome (Loader * Allocator)%type;
  ensure_local : Loader → Outcome string;
}.

(** A [py::dict] from names to arrays, by value. *)
Abbreviation py_dict := (gmap string ndarray).

Section Bridge.
Context `{External}.

(** ** The state of the process, seen from the calling thread *)
Record World := mkWorld {
  w_env : gmap string string;     (* environ *)
  w_libs : gmap string bool;      (* resident shared objects; true = RTLD_GLOBAL *)
  w_dlerror : string;             (* what dlerror() would report *)
  w_initialized : bool;           (* Py_IsInitialized() *)
  w_gil : nat;                    (* how many times this thread holds the GIL *)
  w_py : py_state;
}.

Definition set_env (f : gmap string string → gmap string string) (w : World) : World :=
  mkWorld (f (w_env w)) (w_libs w) (w_dlerror w) (w_initialized w) (w_gil w) (w_py w).
Definition set_libs (f : gmap string bool → gmap string bool) (w : World) : World :=
  mkWorld (w_env w) (f (w_libs w)) (w_dlerror w) (w_initialized w) (w_gil w) (w_py w).
Definition set_initialized (b : bool) (w : World) : World :=
  mkWorld (w_env w) (w_libs w) (w_dlerror w) b (w_gil w) (w_py w).
Definition set_gil (n : nat) (w : World) : World :=
  mkWorld (w_env w) (w_libs w) (w_dlerror w) (w_initialized w) n (w_py w).
Definition set_py (s : py_state) (w : World) : World :=
  mkWorld (w_env w) (w_libs w) (w_dlerror w) (w_initialized w) (w_gil w) s.

Definition gil_held (w : World) : bool :=
  match w_gil w with
  | 0 => false
  | S _ => true
  end.

(** ** Observable events *)

(** The C++ variables of the file that own an interpreter reference. *)
Inductive Var :=
| var_load_neuropod                    (* local of the constructor *)
| var_maybe_convert_bindings_types_    (* member of PythonBridge *)
| var_neuropod_                        (* member of PythonBridge *)
| var_out                              (* member of SealedPythonValueMap *)
| var_model_outputs_raw                (* local of infer_internal *)
| var_model_outputs.                   (* local of infer_internal *)

#[global] Instance Var_eq_dec : EqDecision Var.
Proof. solve_decision. Defined.

(** What the file does to the interpreter. *)
Inductive Action :=
| ImportAttr (module attr : string)             (* py::module::import(m).attr(a) *)
| CallLoad (f : py_object) (path : string)      (* load_neuropod(local_path) *)
| NewDict                                       (* py::dict() *)
| ToNumpy (item : NeuropodValue)                (* tensor_to_numpy(...) *)
| SetItem (key : string) (value : ndarray)      (* item assignment on the dict *)
| CallInfer (model : py_object) (inputs : py_dict)
| CallConvert (f : py_object) (raw : py_dict)
| FromNumpyDict (a : Allocator) (d : py_dict)
| Hold (v : Var)                                (* v starts owning a reference *)
| Drop (v : Var).                               (* v gives its reference up: Py_DECREF *)

Inductive Event :=
| GilAcquire                                    (* py::gil_scoped_acquire constructed *)
| GilRelease                                    (* ... and destroyed *)
| Touch (a : Action) (locked : bool).           (* interpreter touched; was the GIL held? *)

(** ** The monad: state, exceptions, trace *)

Definition M (St A : Type) : Type := St → Outcome A * St * list Event.

Definition ret {St A} (a : A) : M St A := λ s, (Ok a, s, []).

Definition bind {St A B} (m : M St A) (k : A → M St B) : M St B := λ s,
  match m s with
  | (Ok a, s1, t1) => let '(o, s2, t2) := k a s1 in (o, s2, t1 ++ t2)
  | (Throw e, s1, t1) => (Throw e, s1, t1)
  | (Fault why, s1, t1) => (Fault why, s1, t1)
  end.

Declare Scope bridge_scope.
Notation "x ← y ; z" := (bind y (λ x, z))
  (at level 20, y at level 100, z at level 200, only parsing) : bridge_scope.
Notation "x ;; z" := (bind x (λ _, z))
  (at level 100, z at level 200, only parsing, right associativity) : bridge_scope.
Local Open Scope bridge_scope.

Definition throw {St A} (e : Exception) : M St A := λ s, (Throw e, s, []).
Definition fault {St A} (why : string) : M St A := λ s, (Fault why, s, []).

(** Scope exit: [cleanup] is a destructor; it runs when [body] returns and
    when an exception unwinds through the scope. *)
Definition finally {St A} (body : M St A) (cleanup : M St unit) : M St A := λ s,
  match body s with
  | (Fault why, s1, t1) => (Fault why, s1, t1)
  | (o, s1, t1) =>
      match cleanup s1 with
      | (Ok _, s2, t2) => (o, s2, t1 ++ t2)
      | (Throw e, s2, t2) => (Fault "exception leaves a destructor", s2, t1 ++ t2)
      | (Fault why, s2, t2) => (Fault why, s2, t1 ++ t2)
      end
  end.

(** [cleanup] runs only when an exception unwinds through [body]. *)
Definition on_throw {St A} (body : M St A) (cleanup : M St unit) : M St A := λ s,
  match body s with
  | (Throw e, s1, t1) =>
      match cleanup s1 with
      | (Ok _, s2, t2) => (Throw e, s2, t1 ++ t2)
      | (Throw _, s2, t2) => (Fault "exception leaves a destructor", s2, t1 ++ t2)
      | (Fault why, s2, t2) => (Fault why, s2, t1 ++ t2)
      end
  | r => r
  end.

(** A free function called from a member function of an object of type [T]. *)
Definition in_world {T A} (m : M World A) : M (T * World) A := λ '(this, w),
  let '(o, w', t) := m w in (o, (this, w'), t).

Definition get_world : M World World := λ w, (Ok w, w, []).
Definition modify_world (f : World → World) : M World unit := λ w, (Ok tt, f w, []).
Definition emit (e : Event) : M World unit := λ w, (Ok tt, w, [e]).

(** An interpreter operation: logged with the lock state of the caller. The
    real interpreter is undefined when it is touched without the GIL; the
    model records that in the event ([locked = false]) and goes on, so what
    follows an unlocked event is what would happen if the damage went
    unnoticed. *)
Definition touch (a : Action) : M World unit := λ w, (Ok tt, w, [Touch a (gil_held w)]).

(** Run a step of the interpreter on its own state. *)
Definition py_run {A} (f : py_state → Outcome A * py_state) : M World A := λ w,
  let '(o, s) := f (w_py w) in (o, set_py s w, []).

Definition lift_outcome {St A} (o : Outcome A) : M St A := λ s, (o, s, []).

(** Dereferencing a [std::unique_ptr]. *)
Definition deref {St A} (p : option A) : M St A :=
  match p with
  | Some a => ret a
  | None => fault "null unique_ptr dereferenced"
  end.

(** ** libc: environment and dynamic loader *)

Definition getenv (name : string) : M World (option string) :=
  w ← get_world; ret (w_env w !! name).

(** [setenv(name, value, overwrite)]: [value] is a C-string. *)
Definition setenv (name : string) (value : string) (overwrite : bool) : M World unit :=
  modify_world (set_env (λ env,
    if overwrite || bool_decide (env !! name = None)
    then <[name := c_str value]> env else env)).

(** ** [set_python_path] *)

Definition set_python_path (paths_to_add : list string) : M World unit :=
  let python_path := ""%string in
  let python_path :=
    fold_left (λ python_path dir, python_path +:+ dir +:+ ":") paths_to_add python_path in
  existing ← getenv "PYTHONPATH";
  let python_path :=
    match existing with
    | Some existing => python_path +:+ existing
    | None => python_path
    end in
  (* Overwrite the existing PYTHONPATH with the new one *)
  setenv "PYTHONPATH" python_path true.

(** [dlopen(name, RTLD_NOW | RTLD_GLOBAL | RTLD_NOLOAD)]: nothing is loaded; an
    object that is already resident is promoted to global visibility and a
    handle comes back ([true]); otherwise the null pointer ([false]). *)
Definition dlopen_global_noload (name : string) : M World bool :=
  w ← get_world;
  match w_libs w !! name with
  | Some _ => modify_world (set_libs <[name := true]>);; ret true
  | None => ret false
  end.

Definition dlerror : M World string :=
  w ← get_world; ret (w_dlerror w).

(** Modelled from the spec: the macro [NEUROPOD_ERROR] is defined outside
    this file; symbol-promotion failure "aborts construction with a
    descriptive error", so the macro raises an exception with its message. *)
Definition NEUROPOD_ERROR {St A} (message : string) : M St A :=
  throw (RuntimeError message).

(** ** The interpreter lock *)

(** [py::initialize_interpreter()]: when the interpreter can start in the
    environment of the process, the calling thread comes back holding the
    GIL; when it cannot (the interpreter home is not a Python prefix),
    [Py_InitializeEx] ends the process. *)
Definition initialize_interpreter : M World unit :=
  w ← get_world;
  if py_can_start (w_env w)
  then modify_world (λ w, set_gil 1 (set_initialized true w))
  else fault "Py_InitializeEx: fatal error, the interpreter cannot start".

(** [py::gil_scoped_release]: gives the GIL up and remembers what to restore. *)
Record gil_scoped_release := mk_gil_scoped_release { saved_gil : nat }.

Definition make_gil_scoped_release : M World gil_scoped_release :=
  w ← get_world;
  modify_world (set_gil 0);;
  ret (mk_gil_scoped_release (w_gil w)).

(** [py::gil_scoped_acquire]: re-entrant; constructor and destructor. *)
Definition gil_scoped_acquire_ctor : M World unit :=
  emit GilAcquire;; modify_world (λ w, set_gil (S (w_gil w)) w).
Definition gil_scoped_acquire_dtor : M World unit :=
  modify_world (λ w, set_gil (pred (w_gil w)) w);; emit GilRelease.

(** [{ py::gil_scoped_acquire gil; body }] inside a member function. *)
Definition with_gil {T A} (body : M (T * World) A) : M (T * World) A :=
  in_world gil_scoped_acquire_ctor;; finally body (in_world gil_scoped_acquire_dtor).

(** ** [maybe_initialize] *)

Definition PYTHON_LIB_NAME : string := "libpython" +:+ PYTHON_VERSION +:+ ".so".

(** Initialize python if necessary and make sure we don't lock the GIL *)
Definition maybe_initialize : M World (option gil_scoped_release) :=
  w ← get_world;
  if w_initialized w then ret None
  else
    (if is_apple then ret tt
     else
       libpython ← dlopen_global_noload PYTHON_LIB_NAME;
       if libpython then ret tt
       else
         why ← dlerror;
         NEUROPOD_ERROR
           ("Failed to promote libpython to RTLD_GLOBAL. Error from dlopen: " +:+ why));;
    (* If we have a virtualenv, use it *)
    venv_path ← getenv "VIRTUAL_ENV";
    match venv_path with
    | Some venv_path => setenv "PYTHONHOME" venv_path true
    | None => ret tt
    end;;
    (* Start the interpreter *)
    initialize_interpreter;;
    token ← make_gil_scoped_release;
    ret (Some token).

(** Handle interpreter startup and shutdown: the static [gil_release] of the
    file, initialised before any bridge is constructed. *)
Definition gil_release : M World (option gil_scoped_release) := maybe_initialize.

(** ** Objects and their [std::unique_ptr] members *)

Definition this {T} : M (T * World) T := λ '(t, w), (Ok t, (t, w), []).
Definition set_this {T} (f : T → T) : M (T * World) unit := λ '(t, w), (Ok tt, (f t, w), []).

(** A [std::unique_ptr] member of [T] that owns an interpreter object. *)
Record Member (T X : Type) := mkMember {
  m_var : Var;
  m_get : T → option X;
  m_set : option X → T → T;
}.
Arguments m_var {T X} _.
Arguments m_get {T X} _ _.
Arguments m_set {T X} _ _ _.

(** [member.reset()], also the destructor of the member: nothing happens on
    a null pointer. *)
Definition reset {T X} (m : Member T X) : M (T * World) unit :=
  t ← this;
  match m_get m t with
  | Some _ => set_this (m_set m None);; in_world (touch (Drop (m_var m)))
  | None => ret tt
  end.

(** [member = stdx::make_unique<...>(x)] *)
Definition assign {T X} (m : Member T X) (x : X) : M (T * World) unit :=
  t ← this;
  set_this (m_set m (Some x));;
  in_world (touch (Hold (m_var m)));;
  match m_get m t with
  | Some _ => in_world (touch (Drop (m_var m)))
  | None => ret tt
  end.

(** ** [PythonBridge] *)

Record PythonBridge := mkPythonBridge {
  loader_ : Loader;                                  (* base class *)
  allocator_ : Allocator;                            (* base class *)
  neuropod_ : option py_object;
  maybe_convert_bindings_types_ : option py_object;
}.

Definition member_neuropod_ : Member PythonBridge py_object :=
  mkMember _ _ var_neuropod_ neuropod_
    (λ x b, mkPythonBridge (loader_ b) (allocator_ b) x (maybe_convert_bindings_types_ b)).

Definition member_maybe_convert_bindings_types_ : Member PythonBridge py_object :=
  mkMember _ _ var_maybe_convert_bindings_types_ maybe_convert_bindings_types_
    (λ x b, mkPythonBridge (loader_ b) (allocator_ b) (neuropod_ b) x).

(** [py::module::import(module).attr(attr)] converted to a [py::object]. *)
Definition import_attr (module attr : string) : M World py_object :=
  touch (ImportAttr module attr);; py_run (py_import_attr module attr).

(** The body of the constructor, after the base class and the members (both
    null) have been initialised. *)
Definition PythonBridge_body (python_path_additions : list string)
    : M (PythonBridge * World) unit :=
  (* Modify PYTHONPATH *)
  in_world (set_python_path python_path_additions);;
  (* Acquire the GIL *)
  with_gil (
    (* Get the neuropod loader *)
    load_neuropod ← in_world (import_attr "neuropod.loader" "load_neuropod");
    in_world (touch (Hold var_load_neuropod));;
    finally (
      (* Converts from unicode to ascii for python 3 string arrays *)
      convert ← in_world
        (import_attr "neuropod.utils.dtype_utils" "maybe_convert_bindings_types");
      assign member_maybe_convert_bindings_types_ convert;;
      (* Make sure that the model is local *)
      t ← this;
      local_path ← lift_outcome (ensure_local (loader_ t));
      (* Load the neuropod and save a reference to it *)
      model ← in_world (touch (CallLoad load_neuropod local_path);;
                        py_run (py_call_path load_neuropod local_path));
      assign member_neuropod_ model)
    (in_world (touch (Drop var_load_neuropod)))).

(** The members are destroyed in the reverse of their declaration order
    ([neuropod_] is declared first in the class). *)
Definition PythonBridge_destroy_members : M (PythonBridge * World) unit :=
  reset member_maybe_convert_bindings_types_;; reset member_neuropod_.

(** The constructor on the storage of the new object: when the body throws,
    its locals are unwound first (inside the body), then the members that
    were already constructed are destroyed and the exception goes on to the
    caller. *)
Definition PythonBridge_ctor (python_path_additions : list string)
    : M (PythonBridge * World) unit :=
  on_throw (PythonBridge_body python_path_additions) PythonBridge_destroy_members.

(** [PythonBridge(neuropod_path, options, python_path_additions)] *)
Definition PythonBridge_new (neuropod_path : string) (options : RuntimeOptions)
    (python_path_additions : list string) : M World PythonBridge := λ w,
  match backend_base neuropod_path with
  | Ok (loader, allocator) =>
      let storage := mkPythonBridge loader allocator None None in
      match PythonBridge_ctor python_path_additions (storage, w) with
      | (Ok _, (b, w'), t) => (Ok b, w', t)
      | (Throw e, (_, w'), t) => (Throw e, w', t)
      | (Fault why, (_, w'), t) => (Fault why, w', t)
      end
  | Throw e => (Throw e, w, [])
  | Fault why => (Fault why, w, [])
  end.

(** [~PythonBridge()]: the body, then the members. *)
Definition PythonBridge_dtor : M (PythonBridge * World) unit :=
  (* Acquire the GIL *)
  with_gil (
    (* Delete the stored objects *)
    reset member_maybe_convert_bindings_types_;;
    reset member_neuropod_);;
  PythonBridge_destroy_members.

(** ** [SealedPythonValueMap] *)

Record SealedPythonValueMap := mkSealedPythonValueMap {
  out : option py_dict;
}.

Definition member_out : Member SealedPythonValueMap py_dict :=
  mkMember _ _ var_out out (λ x _, mkSealedPythonValueMap x).

(** [SealedPythonValueMap() : out(stdx::make_unique<py::dict>()) {}]: no
    lock is taken here; the two events carry the lock state of the caller. *)
Definition SealedPythonValueMap_ctor : M World SealedPythonValueMap :=
  touch NewDict;;
  touch (Hold var_out);;
  ret (mkSealedPythonValueMap (Some ∅)).

Definition SealedPythonValueMap_dtor : M (SealedPythonValueMap * World) unit :=
  (* Acquire the GIL *)
  with_gil (reset member_out);;
  reset member_out.

(** The right operand of the assignment is evaluated first; the key is the
    name read as a C string and turned into a [py::str]. *)
Definition seal (name : string) (item : NeuropodValue)
    : M (SealedPythonValueMap * World) unit :=
  (* Acquire the GIL *)
  with_gil (
    (* Convert to numpy *)
    value ← in_world (touch (ToNumpy item);;
                      py_run (tensor_to_numpy (dynamic_pointer_cast item)));
    t ← this;
    d ← deref (out t);
    key ← lift_outcome (py_str (c_str name));
    in_world (touch (SetItem key value));;
    set_this (m_set member_out (Some (<[key := value]> d)))).

(** The base class [SealedValueMap] as [infer_internal] receives it: an
    object whose dynamic type is [SealedPythonValueMap], or the sealed map of
    another backend. *)
Inductive SealedValueMap :=
| IsPython (m : SealedPythonValueMap)
| IsOther (dynamic_type : string).

(** [static_cast<const SealedPythonValueMap &>(inputs_orig)]: no check is
    made; on an object of another dynamic type the behaviour is undefined. *)
Definition static_cast_SealedPythonValueMap {St} (inputs_orig : SealedValueMap)
    : M St SealedPythonValueMap :=
  match inputs_orig with
  | IsPython m => ret m
  | IsOther _ => fault "static_cast to a type the object does not have"
  end.

Definition get_sealed_map : M (PythonBridge * World) SealedPythonValueMap :=
  in_world SealedPythonValueMap_ctor.

(** ** Inference *)

(** Modelled from the spec: [from_numpy_dict] is declared in
    [python_bindings.hh]; the spec has it "convert each resulting entry back
    to a native tensor via TensorCodec using the bridge's tensor allocator",
    an entry being converted by [from_interpreter(name, array, allocator)]. *)
Definition from_numpy_dict (allocator : Allocator) (items : py_dict)
    : Outcome (gmap string NeuropodValue) :=
  map_fold (λ name array acc,
    match acc with
    | Ok m =>
        match tensor_from_numpy allocator name array with
        | Ok tensor => Ok (<[name := tensor]> m)
        | Throw e => Throw e
        | Fault why => Fault why
        end
    | failed => failed
    end) (Ok ∅) items.

Definition get_tensor_allocator : M (PythonBridge * World) Allocator :=
  t ← this; ret (allocator_ t).

(** Run inference. The temporaries of a full expression are not traced. *)
Definition infer_internal (inputs_orig : SealedValueMap)
    : M (PythonBridge * World) (gmap string NeuropodValue) :=
  (* Cast to the right type *)
  inputs ← static_cast_SealedPythonValueMap inputs_orig;
  (* Acquire the GIL *)
  with_gil (
    (* Convert to a py::dict *)
    model_inputs ← deref (out inputs);
    (* Run inference *)
    t ← this;
    model ← deref (neuropod_ t);
    raw ← in_world (touch (CallInfer model model_inputs);;
                    infer ← py_run (py_attr model "infer");
                    result ← py_run (py_call_dict infer model_inputs);
                    py_run (py_cast_dict result));
    in_world (touch (Hold var_model_outputs_raw));;
    finally (
      (* Postprocess for python 3 *)
      convert ← deref (maybe_convert_bindings_types_ t);
      coerced ← in_world (touch (CallConvert convert raw);;
                          result ← py_run (py_call_dict convert raw);
                          py_run (py_cast_dict result));
      in_world (touch (Hold var_model_outputs));;
      finally (
        (* Get the outputs *)
        allocator ← get_tensor_allocator;
        outputs ← in_world (touch (FromNumpyDict allocator coerced);;
                            lift_outcome (from_numpy_dict allocator coerced));
        (* We need a unique pointer *)
        ret outputs)
      (in_world (touch (Drop var_model_outputs))))
    (in_world (touch (Drop var_model_outputs_raw)))).

End Bridge.

(** * Reading results and traces *)

Abbreviation PYTHONPATH := "PYTHONPATH"%string.

Section Observations.
Context `{External}.

(** The directories, each followed by the separator. *)
Definition colon_terminated (paths : list string) : string :=
  foldr (λ dir rest, dir +:+ ":" +:+ rest) ""%string paths.

(** The error raised when the promotion of libpython fails. *)
Definition promotion_failure (why : string) : Exception :=
  RuntimeError ("Failed to promote libpython to RTLD_GLOBAL. Error from dlopen: " +:+ why).

Definition trace_of {St A} (r : Outcome A * St * list Event) : list Event := r.2.

(** Was the GIL held at every interpreter operation of the trace? *)
Definition locked (e : Event) : bool :=
  match e with
  | Touch _ held => held
  | _ => true
  end.
Definition all_locked (t : list Event) : bool := forallb locked t.

(** The variables that took a reference, in the order they took it, and
    those that gave one up, in the order they gave it up. *)
Definition created (t : list Event) : list Var :=
  omap (λ e, match e with Touch (Hold v) _ => Some v | _ => None end) t.
Definition released (t : list Event) : list Var :=
  omap (λ e, match e with Touch (Drop v) _ => Some v | _ => None end) t.

(** How many times the coercion helper was called. *)
Definition is_coercion_call (e : Event) : bool :=
  match e with
  | Touch (CallConvert _ _) _ => true
  | _ => false
  end.
Definition coercion_calls (t : list Event) : nat :=
  length (filter is_coercion_call t).

Definition is_member (v : Var) : bool :=
  match v with
  | var_neuropod_ | var_maybe_convert_bindings_types_ => true
  | _ => false
  end.

(** Ownership along a trace: [release v held] takes [v] out of the owners,
    and fails when [v] owns nothing (a release of an unset handle, or a
    second release). *)
Fixpoint release (v : Var) (held : list Var) : option (list Var) :=
  match held with
  | [] => None
  | x :: rest => if decide (x = v) then Some rest else (x ::.) <$> release v rest
  end.

Fixpoint owners (t : list Event) (held : list Var) : option (list Var) :=
  match t with
  | [] => Some held
  | Touch (Hold v) _ :: t => owners t (v :: held)
  | Touch (Drop v) _ :: t =>
      match release v held with
      | Some held' => owners t held'
      | None => None
      end
  | _ :: t => owners t held
  end.

(** The environment once the virtualenv, if any, has been made the
    interpreter home. *)
Definition home_from_virtualenv (env : gmap string string) : gmap string string :=
  match env !! "VIRTUAL_ENV"%string with
  | Some venv_path => <["PYTHONHOME"%string := c_str venv_path]> env
  | None => env
  end.

(** Past the promotion nothing stops a first initialization: the token
    comes back. *)
Definition promotion_is_the_only_stop (w : World) : Prop :=
  w_initialized w = false →
  is_Some (w_libs w !! PYTHON_LIB_NAME) →
  ∃ token w' t, maybe_initialize w = (Ok (Some token), w', t).

(** The release order of the destruction is the reverse of the creation
    order of the members during construction. *)
Definition releases_in_reverse_of_creation (construction destruction : list Event) : Prop :=
  released destruction = rev (filter is_member (created construction)).

End Observations.

Ltac run_model :=
  repeat progress
    unfold with_gil, finally, on_throw, bind, in_world, touch, emit, py_run,
      this, set_this, deref, lift_outcome, ret, throw, fault, get_world,
      modify_world, gil_scoped_acquire_ctor, gil_scoped_acquire_dtor, gil_held, reset, assign,
      static_cast_SealedPythonValueMap;
  simpl.

(** Case analysis on what the interpreter and the collaborators answer. *)
Ltac split_cases :=
  repeat (simpl;
    match goal with
    | |- context [tensor_to_numpy ?a ?s] =>
        destruct (tensor_to_numpy a s) as [[?|?|?] ?] eqn:?
    | |- context [py_import_attr ?a ?b ?s] =>
        destruct (py_import_attr a b s) as [[?|?|?] ?] eqn:?
    | |- context [py_call_path ?a ?b ?s] =>
        destruct (py_call_path a b s) as [[?|?|?] ?] eqn:?
    | |- context [py_attr ?a ?b ?s] => destruct (py_attr a b s) as [[?|?|?] ?] eqn:?
    | |- context [py_call_dict ?a ?b ?s] =>
        destruct (py_call_dict a b s) as [[?|?|?] ?] eqn:?
    | |- context [py_cast_dict ?a ?s] => destruct (py_cast_dict a s) as [[?|?|?] ?] eqn:?
    | |- context [from_numpy_dict ?a ?d] => destruct (from_numpy_dict a d) eqn:?
    | |- context [ensure_local ?a] => destruct (ensure_local a) eqn:?
    | |- context [py_str ?a] => destruct (py_str a) eqn:?
    | |- context [out ?m] => destruct (out m) eqn:?
    | |- context [neuropod_ ?m] => destruct (neuropod_ m) eqn:?
    | |- context [maybe_convert_bindings_types_ ?m] =>
        destruct (maybe_convert_bindings_types_ m) eqn:?
    end);
  simpl; try done.

(** * A concrete interpreter, to run the model on *)

Module Demo.

Inductive object :=
| Named (name : string)                    (* a callable or a model, by name *)
| Dict (d : gmap string nat).              (* a dictionary of arrays *)

Definition call_dict (f : object) (d : gmap string nat) : Outcome object :=
  match f with
  | Named "neuropod.utils.dtype_utils.maybe_convert_bindings_types" => Ok (Dict d)
  | Named "model:/models/addition.infer" => Ok (Dict (S <$> d))
  | _ => Throw (PythonError "TypeError: object is not callable")
  end.

#[export] Instance external : External := {|
  is_apple := false;
  PYTHON_VERSION := "2.7";
  py_object := object;
  ndarray := nat;
  py_state := nat;                         (* the number of calls made so far *)
  py_can_start := λ env,                   (* Python lives in /usr and in /venv *)
    match env !! "PYTHONHOME"%string with
    | Some home => String.eqb home "/usr" || String.eqb home "/venv"
    | None => true
    end;
  py_import_attr := λ module attr s, (Ok (Named (module +:+ "." +:+ attr)), S s);
  py_attr := λ o attr s,
    (match o with
     | Named n => Ok (Named (n +:+ "." +:+ attr))
     | Dict _ => Throw (PythonError "AttributeError")
     end, S s);
  py_call_path := λ f path s,
    (if String.eqb path "/models/addition" then Ok (Named ("model:" +:+ path))
     else Throw (PythonError "ValueError: not a neuropod"), S s);
  py_call_dict := λ f d s, (call_dict f d, S s);
  py_cast_dict := λ o s,
    (match o with
     | Dict d => Ok d
     | Named _ => Throw (PythonError "TypeError: not a dict")
     end, s);
  py_str := Ok;
  NeuropodValue := nat;
  NeuropodTensor := nat;
  Allocator := unit;
  dynamic_pointer_cast := Some;
  tensor_to_numpy := λ t s,
    (match t with
     | Some n => Ok n
     | None => Throw (RuntimeError "not a tensor")
     end, s);
  tensor_from_numpy := λ _ _ a, Ok a;
  RuntimeOptions := unit;
  Loader := string;
  backend_base := λ path, Ok (path, tt);
  ensure_local := Ok;
|}.

(** A freshly started native process: [libpython2.7.so] is linked in, the
    interpreter is not running, [PYTHONPATH] is unset. *)
Definition fresh : World :=
  mkWorld ∅ {["libpython2.7.so" := false]} "" false 0 0.

(** The same process when the library is not resident. *)
Definition unlinked : World :=
  mkWorld ∅ ∅ "libpython2.7.so: cannot open shared object file" false 0 0.

(** The native process once its static initializer has run. *)
Definition started : World := (maybe_initialize fresh).1.2.

(** A fresh native process whose [VIRTUAL_ENV] names a directory that holds
    no Python. *)
Definition misconfigured : World :=
  mkWorld {["VIRTUAL_ENV" := "/tmp/gone"]} {["libpython2.7.so" := false]} "" false 0 0.

(** A model that loads, built and destroyed in the started process. *)
Definition construction := PythonBridge_new "/models/addition" tt [] started.
Definition construction_trace : list Event := trace_of construction.
Definition destruction_trace : list Event :=
  match construction with
  | (Ok b, w, _) => trace_of (PythonBridge_dtor (b, w))
  | _ => []
  end.

(** The bridge that this construction returns, and a sealed input set. *)
Definition bridge : PythonBridge :=
  mkPythonBridge "/models/addition" tt
    (Some (Named "model:/models/addition"))
    (Some (Named "neuropod.utils.dtype_utils.maybe_convert_bindings_types")).
Definition inputs : SealedPythonValueMap :=
  mkSealedPythonValueMap (Some {["x"%string := 1]}).

(** Bridges whose model, or whose coercion helper, is an object that cannot
    be called. *)
Definition bridge_without_infer : PythonBridge :=
  mkPythonBridge "/models/other" tt
    (Some (Named "model:/models/other"))
    (Some (Named "neuropod.utils.dtype_utils.maybe_convert_bindings_types")).
Definition bridge_without_helper : PythonBridge :=
  mkPythonBridge "/models/addition" tt
    (Some (Named "model:/models/addition"))
    (Some (Named "neuropod.utils.dtype_utils.missing")).

(** A process that runs inside the interpreter already. *)
Definition hosted : World :=
  mkWorld {["PYTHONPATH" := "/usr/lib/python"; "VIRTUAL_ENV" := "/venv"]}
    ∅ "" true 1 7.

End Demo.

(** * A second interpreter: an Apple build with collaborators that can fail *)

Module Mac.

#[export] Instance external : External := {|
  is_apple := true;
  PYTHON_VERSION := "3.6";
  py_object := Demo.object;
  ndarray := nat;
  py_state := nat;
  py_can_start := λ env,
    match env !! "PYTHONHOME"%string with
    | Some home => String.eqb home "/usr" || String.eqb home "/venv"
    | None => true
    end;
  py_import_attr := λ module attr s, (Ok (Demo.Named (module +:+ "." +:+ attr)), S s);
  py_attr := λ o attr s,
    (match o with
     | Demo.Named n => Ok (Demo.Named (n +:+ "." +:+ attr))
     | Demo.Dict _ => Throw (PythonError "AttributeError")
     end, S s);
  py_call_path := λ f path s, (Ok (Demo.Named ("model:" +:+ path)), S s);
  py_call_dict := λ f d s, (Demo.call_dict f d, S s);
  py_cast_dict := λ o s,
    (match o with
     | Demo.Dict d => Ok d
     | Demo.Named _ => Throw (PythonError "TypeError: not a dict")
     end, s);
  py_str := Ok;
  NeuropodValue := option nat;             (* [None]: a value that is no tensor *)
  NeuropodTensor := nat;
  Allocator := unit;
  dynamic_pointer_cast := id;
  tensor_to_numpy := λ t s,
    (match t with
     | Some n => Ok n
     | None => Throw (RuntimeError "not a tensor")
     end, s);
  tensor_from_numpy := λ _ _ a, Ok (Some a);
  RuntimeOptions := unit;
  Loader := string;
  backend_base := λ path,
    if String.eqb path "" then Throw (RuntimeError "no such neuropod")
    else Ok (path, tt);
  ensure_local := λ path,
    if String.prefix "s3://" path then Throw (RuntimeError "download failed")
    else Ok path;
|}.

(** A fresh native process on this platform, inside a virtualenv. *)
Definition fresh : World :=
  mkWorld {["VIRTUAL_ENV" := "/venv"; "PYTHONHOME" := "/usr"]} ∅ "" false 0 0.

Definition started : World := (maybe_initialize fresh).1.2.

Definition inputs : SealedPythonValueMap :=
  mkSealedPythonValueMap (Some {["x"%string := 1]}).

End Mac.

(** * Properties *)

Section Properties.
Context `{External}.

(** ** C strings and the search path *)

Lemma append_cons (x : ascii) (a b : string) : String x a +:+ b = String x (a +:+ b).
Proof. reflexivity. Qed.

Lemma append_assoc (a b c : string) : (a +:+ b) +:+ c = a +:+ (b +:+ c).
Proof.
  induction a as [|x a IH]; [reflexivity|]. rewrite !append_cons. by rewrite IH.
Qed.

Lemma append_nil_r (a : string) : a +:+ "" = a.
Proof. induction a as [|x a IH]; [reflexivity|]. rewrite append_cons. by rewrite IH. Qed.

Lemma fold_left_colon (paths : list string) (acc : string) :
  fold_left (λ python_path dir, python_path +:+ dir +:+ ":") paths acc
  = acc +:+ colon_terminated paths.
Proof.
  revert acc. induction paths as [|dir paths IH]; intros acc; simpl.
  - by rewrite append_nil_r.
  - rewrite IH. by rewrite !append_assoc.
Qed.

Lemma nul_free_spec (s : string) : nul_free s ↔ c_str s = s.
Proof.
  unfold nul_free. destruct (String.eqb_spec (c_str s) s); simpl; naive_solver.
Qed.

Lemma c_str_idemp (s : string) : c_str (c_str s) = c_str s.
Proof.
  induction s as [|x s IH]; simpl; [done|].
  destruct (Ascii.eqb x "000") eqn:E; simpl; [done|]. by rewrite E, IH.
Qed.

Lemma c_str_app (a b : string) :
  c_str a = a → c_str (a +:+ b) = a +:+ c_str b.
Proof.
  induction a as [|x a IH]; [done|]. rewrite !append_cons. simpl.
  destruct (Ascii.eqb x "000"); [done|]. intros [= E]. by rewrite IH.
Qed.

Lemma nul_free_app (a b : string) : nul_free a → nul_free b → nul_free (a +:+ b).
Proof.
  rewrite !nul_free_spec. intros Ha Hb. by rewrite c_str_app, Hb.
Qed.

Lemma nul_free_colon_terminated (paths : list string) :
  Forall (λ dir, nul_free dir) paths → nul_free (colon_terminated paths).
Proof.
  induction 1 as [|dir paths Hd _ IH]; simpl; [done|].
  apply nul_free_app; [done|]. by apply (nul_free_app ":").
Qed.

(** What a call writes, whatever the bytes of the directories. *)
Lemma set_python_path_run (paths : list string) (w : World) :
  set_python_path paths w
  = (Ok tt,
     set_env <[PYTHONPATH :=
       c_str (colon_terminated paths +:+ default ""%string (w_env w !! PYTHONPATH))]> w,
     []).
Proof.
  unfold set_python_path, getenv, setenv, bind, get_world, ret, modify_world.
  simpl. rewrite fold_left_colon. simpl.
  destruct (w_env w !! PYTHONPATH); simpl; [done|]. by rewrite append_nil_r.
Qed.

Lemma set_env_set_env (f g : gmap string string → gmap string string) (w : World) :
  set_env f (set_env g w) = set_env (f ∘ g) w.
Proof. reflexivity. Qed.

(** C3. With a pre-existing value of the search-path variable, applying a
    first list of directories and then a second one leaves the variable
    holding the directories of the second call, then those of the first call,
    then the original value, each directory followed by the separator; the
    rest of the process state is as before. The directories and the old
    value are C strings (no NUL byte inside); the two lists need not even be
    disjoint. *)
Theorem set_python_path_twice (w : World) (original : string) (first second : list string) :
  w_env w !! PYTHONPATH = Some original →
  nul_free original →
  Forall (λ dir, nul_free dir) first →
  Forall (λ dir, nul_free dir) second →
  bind (set_python_path first) (λ _, set_python_path second) w
  = (Ok tt,
     set_env <[PYTHONPATH :=
       colon_terminated second +:+ colon_terminated first +:+ original]> w,
     []).
Proof.
  intros Hold Horig Hfirst Hsecond.
  unfold bind. rewrite set_python_path_run, set_python_path_run. simpl.
  rewrite Hold, lookup_insert_eq. simpl.
  rewrite set_env_set_env. unfold set_env. simpl. rewrite insert_insert_eq.
  assert (Hinner : c_str (colon_terminated first +:+ original)
                   = colon_terminated first +:+ original).
  { apply nul_free_spec, nul_free_app; [|done]. by apply nul_free_colon_terminated. }
  rewrite Hinner.
  assert (Houter : c_str (colon_terminated second +:+ colon_terminated first +:+ original)
                   = colon_terminated second +:+ colon_terminated first +:+ original).
  { apply nul_free_spec, nul_free_app; [by apply nul_free_colon_terminated|].
    by apply nul_free_spec. }
  by rewrite Houter.
Qed.

(** C10. Every directory is written with a separator after it, so without
    a pre-existing value the written value is the directories each followed
    by the separator, the last one included; with no directory and no
    pre-existing value the variable is set to the empty string, not left
    unset. *)
Theorem set_python_path_unset (w : World) (paths : list string) :
  w_env w !! PYTHONPATH = None →
  Forall (λ dir, nul_free dir) paths →
  set_python_path paths w
    = (Ok tt, set_env <[PYTHONPATH := colon_terminated paths]> w, [])
  ∧ (∀ init last, paths = init ++ [last] →
       colon_terminated paths = colon_terminated init +:+ last +:+ ":")
  ∧ (paths = [] →
       ∃ w', set_python_path paths w = (Ok tt, w', [])
             ∧ w_env w' !! PYTHONPATH = Some ""%string).
Proof.
  intros Hnone Hpaths. rewrite set_python_path_run, Hnone. simpl.
  rewrite append_nil_r.
  assert (Hc : c_str (colon_terminated paths) = colon_terminated paths)
    by by apply nul_free_spec, nul_free_colon_terminated.
  rewrite Hc. split; [done|]. split.
  - intros init last ->. clear. induction init as [|dir init IH]; simpl.
    + done.
    + rewrite IH. by rewrite !append_assoc.
  - intros ->. eexists. split; [reflexivity|]. simpl. by rewrite lookup_insert_eq.
Qed.

(** ** Interpreter start-up *)

(** C7. When the interpreter is already running, initialization does
    nothing: no library is promoted, no environment variable is written (the
    interpreter home stays as it is), the interpreter is not started again,
    and no lock-release token comes back. *)
Theorem maybe_initialize_running (w : World) :
  w_initialized w = true → maybe_initialize w = (Ok None, w, []).
Proof.
  intros Hinit. unfold maybe_initialize, bind, get_world. simpl. by rewrite Hinit.
Qed.

(** What a first initialization does once it is past the promotion. *)
Lemma maybe_initialize_past_promotion (w : World) :
  w_initialized w = false →
  is_apple = true ∨ is_Some (w_libs w !! PYTHON_LIB_NAME) →
  let w1 := set_env home_from_virtualenv
              (if is_apple then w else set_libs <[PYTHON_LIB_NAME := true]> w) in
  maybe_initialize w
  = if py_can_start (w_env w1)
    then (Ok (Some (mk_gil_scoped_release 1)), set_gil 0 (set_initialized true w1), [])
    else (Fault "Py_InitializeEx: fatal error, the interpreter cannot start", w1, []).
Proof.
  intros Hinit Hpromote w1. subst w1.
  destruct w as [env libs dl ini gil py]. simpl in Hinit, Hpromote. subst ini.
  unfold maybe_initialize, bind, get_world, dlopen_global_noload. simpl.
  destruct is_apple eqn:Happle; simpl.
  - unfold bind, get_world, initialize_interpreter, home_from_virtualenv, set_env, fault.
    simpl.
    destruct (env !! "VIRTUAL_ENV"%string); simpl;
      unfold bind, get_world; simpl;
      match goal with |- context [py_can_start ?e] => destruct (py_can_start e) end;
      reflexivity.
  - destruct Hpromote as [?|[g Hlib]]; [done|].
    unfold bind, get_world, initialize_interpreter, home_from_virtualenv, set_env, fault.
    simpl. rewrite Hlib. simpl.
    destruct (env !! "VIRTUAL_ENV"%string); simpl;
      unfold bind, get_world; simpl;
      match goal with |- context [py_can_start ?e] => destruct (py_can_start e) end;
      reflexivity.
Qed.

(** C8, as the code has it. On a platform that needs the promotion, a
    first initialization whose promotion fails raises the descriptive error
    and stops there: the state of the process is untouched, the interpreter is
    not started, and whatever was to follow the static initializer (any
    construction of a bridge) does not run. That is the only error the
    initialization raises. When the promotion succeeds the virtualenv, if
    any, is made the interpreter home without a check and the interpreter is
    started: if it can start the token comes back, and if it cannot the
    process ends inside the start. *)
Theorem maybe_initialize_promotion (w : World) :
  w_initialized w = false →
  is_apple = false →
  (w_libs w !! PYTHON_LIB_NAME = None →
     maybe_initialize w = (Throw (promotion_failure (w_dlerror w)), w, [])
     ∧ ∀ A (rest : option gil_scoped_release → M World A),
         bind gil_release rest w = (Throw (promotion_failure (w_dlerror w)), w, []))
  ∧ (is_Some (w_libs w !! PYTHON_LIB_NAME) →
     let w1 := set_env home_from_virtualenv (set_libs <[PYTHON_LIB_NAME := true]> w) in
     maybe_initialize w
     = if py_can_start (w_env w1)
       then (Ok (Some (mk_gil_scoped_release 1)), set_gil 0 (set_initialized true w1), [])
       else (Fault "Py_InitializeEx: fatal error, the interpreter cannot start", w1, [])).
Proof.
  intros Hinit Happle. split.
  - intros Hlib.
    assert (Hthrow : maybe_initialize w
                     = (Throw (promotion_failure (w_dlerror w)), w, [])).
    { unfold maybe_initialize, bind, get_world, dlopen_global_noload. simpl.
      rewrite Hinit, Happle. simpl. unfold bind, get_world. simpl.
      by rewrite Hlib. }
    split; [done|]. intros A rest.
    unfold gil_release, bind. by rewrite Hthrow.
  - intros Hlib.
    pose proof (maybe_initialize_past_promotion w Hinit (or_intror Hlib)) as Hrun.
    by rewrite Happle in Hrun.
Qed.

(** ** The sealed input set *)

(** C6. Sealing a second tensor under a name that is already sealed
    raises nothing and overwrites: the set is what sealing the second tensor
    alone would have made it, the name maps to the second converted value,
    and the set has as many entries as after the first call. *)
Theorem seal_same_name_twice (m : SealedPythonValueMap) (w : World)
    (d : py_dict) (name key : string) (first second : NeuropodValue)
    (v1 v2 : ndarray) (s1 s2 : py_state) :
  out m = Some d →
  py_str (c_str name) = Ok key →
  tensor_to_numpy (dynamic_pointer_cast first) (w_py w) = (Ok v1, s1) →
  tensor_to_numpy (dynamic_pointer_cast second) s1 = (Ok v2, s2) →
  let after_first := <[key := v1]> d in
  let after_second := <[key := v2]> after_first in
  bind (seal name first) (λ _, seal name second) (m, w)
  = (Ok tt, (mkSealedPythonValueMap (Some after_second), set_py s2 w),
     [GilAcquire; Touch (ToNumpy first) true; Touch (SetItem key v1) true; GilRelease;
      GilAcquire; Touch (ToNumpy second) true; Touch (SetItem key v2) true; GilRelease])
  ∧ after_second !! key = Some v2
  ∧ after_second = <[key := v2]> d
  ∧ size after_second = size after_first.
Proof.
  intros Hout Hkey Hfirst Hsecond after_first after_second.
  subst after_first after_second.
  split; [|split; [|split]].
  - unfold seal. run_model. rewrite Hfirst. simpl. rewrite Hout, Hkey. simpl.
    by rewrite Hsecond.
  - apply lookup_insert_eq.
  - apply insert_insert_eq.
  - rewrite insert_insert_eq.
    destruct (d !! key) as [v|] eqn:E.
    + rewrite !map_size_insert_Some; done.
    + rewrite !map_size_insert_None; done.
Qed.

(** ** Inference *)

(** The conversion of a dictionary converts every entry, under its own
    name, with the allocator it was given. *)
Lemma from_numpy_dict_entries (allocator : Allocator) (items : py_dict)
    (outputs : gmap string NeuropodValue) :
  from_numpy_dict allocator items = Ok outputs →
  ∀ name,
    match items !! name with
    | Some array => ∃ tensor, tensor_from_numpy allocator name array = Ok tensor
                              ∧ outputs !! name = Some tensor
    | None => outputs !! name = None
    end.
Proof.
  unfold from_numpy_dict. revert outputs.
  apply (map_fold_weak_ind (λ r m, ∀ outputs, r = Ok outputs → ∀ name,
    match m !! name with
    | Some array => ∃ tensor, tensor_from_numpy allocator name array = Ok tensor
                              ∧ outputs !! name = Some tensor
    | None => outputs !! name = None
    end)).
  - intros outputs [= <-] name. by rewrite !lookup_empty.
  - intros i x m r Hfresh IH outputs Hr name.
    destruct r as [acc| |]; [|done..].
    destruct (tensor_from_numpy allocator i x) as [tensor| |] eqn:Hconv; [|done..].
    injection Hr as <-. specialize (IH acc eq_refl name).
    destruct (decide (i = name)) as [->|Hne].
    + rewrite !lookup_insert_eq. eauto.
    + by rewrite !lookup_insert_ne.
Qed.

(** C4. One inference call on a sealed input set, when the interpreter
    raises nothing: the lock is taken; the model's [infer] entry point is
    called on the sealed mapping and gives the raw mapping; the coercion
    helper is called once, on the whole raw mapping; the coerced mapping is
    converted, entry by entry, with the allocator of the bridge; the two
    local dictionaries are let go; the lock is released; the converted
    mapping is returned. *)
Theorem infer_internal_steps (b : PythonBridge) (inputs : SealedPythonValueMap)
    (w : World) (sealed raw coerced : py_dict) (model convert infer r1 r2 : py_object)
    (s1 s2 s3 s4 s5 : py_state) (outputs : gmap string NeuropodValue) :
  out inputs = Some sealed →
  neuropod_ b = Some model →
  maybe_convert_bindings_types_ b = Some convert →
  py_attr model "infer" (w_py w) = (Ok infer, s1) →
  py_call_dict infer sealed s1 = (Ok r1, s2) →
  py_cast_dict r1 s2 = (Ok raw, s3) →
  py_call_dict convert raw s3 = (Ok r2, s4) →
  py_cast_dict r2 s4 = (Ok coerced, s5) →
  from_numpy_dict (allocator_ b) coerced = Ok outputs →
  infer_internal (IsPython inputs) (b, w)
  = (Ok outputs, (b, set_py s5 w),
     [GilAcquire;
      Touch (CallInfer model sealed) true;
      Touch (Hold var_model_outputs_raw) true;
      Touch (CallConvert convert raw) true;
      Touch (Hold var_model_outputs) true;
      Touch (FromNumpyDict (allocator_ b) coerced) true;
      Touch (Drop var_model_outputs) true;
      Touch (Drop var_model_outputs_raw) true;
      GilRelease])
  ∧ coercion_calls (trace_of (infer_internal (IsPython inputs) (b, w))) = 1
  ∧ ∀ name,
      match coerced !! name with
      | Some array => ∃ tensor, tensor_from_numpy (allocator_ b) name array = Ok tensor
                                ∧ outputs !! name = Some tensor
      | None => outputs !! name = None
      end.
Proof.
  intros Hin Hmodel Hconvert Hattr Hcall1 Hcast1 Hcall2 Hcast2 Hout.
  assert (Hrun : infer_internal (IsPython inputs) (b, w)
                 = (Ok outputs, (b, set_py s5 w),
                    [GilAcquire;
                     Touch (CallInfer model sealed) true;
                     Touch (Hold var_model_outputs_raw) true;
                     Touch (CallConvert convert raw) true;
                     Touch (Hold var_model_outputs) true;
                     Touch (FromNumpyDict (allocator_ b) coerced) true;
                     Touch (Drop var_model_outputs) true;
                     Touch (Drop var_model_outputs_raw) true;
                     GilRelease])).
  { unfold infer_internal, get_tensor_allocator. run_model.
    rewrite Hin, Hmodel. simpl. rewrite Hattr. simpl. rewrite Hcall1. simpl.
    rewrite Hcast1. simpl. rewrite Hconvert. simpl. rewrite Hcall2. simpl.
    rewrite Hcast2. simpl. by rewrite Hout. }
  split; [done|]. split; [by rewrite Hrun|].
  by apply from_numpy_dict_entries.
Qed.

(** ** Construction and destruction *)

(** C2. When the [load] entry point raises during construction, the
    exception reaches the caller of the constructor; the storage of the object
    is left with both members null; along the trace every variable that took
    a reference gave it up exactly once and nothing gave up a reference it did
    not own; running the destructor on what is left returns normally and
    releases nothing. *)
Theorem construction_load_failure (neuropod_path : string) (options : RuntimeOptions)
    (python_path_additions : list string) (w : World) (loader : Loader)
    (allocator : Allocator) (hl hc : py_object) (local_path : string)
    (e : Exception) (s1 s2 s3 : py_state) :
  backend_base neuropod_path = Ok (loader, allocator) →
  py_import_attr "neuropod.loader" "load_neuropod" (w_py w) = (Ok hl, s1) →
  py_import_attr "neuropod.utils.dtype_utils" "maybe_convert_bindings_types" s1
    = (Ok hc, s2) →
  ensure_local loader = Ok local_path →
  py_call_path hl local_path s2 = (Throw e, s3) →
  let storage := mkPythonBridge loader allocator None None in
  let t := [GilAcquire;
            Touch (ImportAttr "neuropod.loader" "load_neuropod") true;
            Touch (Hold var_load_neuropod) true;
            Touch (ImportAttr "neuropod.utils.dtype_utils" "maybe_convert_bindings_types") true;
            Touch (Hold var_maybe_convert_bindings_types_) true;
            Touch (CallLoad hl local_path) true;
            Touch (Drop var_load_neuropod) true;
            GilRelease;
            Touch (Drop var_maybe_convert_bindings_types_) (gil_held w)] in
  ∃ w',
    PythonBridge_new neuropod_path options python_path_additions w = (Throw e, w', t)
    ∧ PythonBridge_ctor python_path_additions (storage, w) = (Throw e, (storage, w'), t)
    ∧ w_gil w' = w_gil w
    ∧ owners t [] = Some []
    ∧ PythonBridge_dtor (storage, w') = (Ok tt, (storage, w'), [GilAcquire; GilRelease]).
Proof.
  intros Hbase Hload Hconvert Hlocal Hcall storage t.
  assert (Hctor : ∃ w', PythonBridge_ctor python_path_additions (storage, w)
                        = (Throw e, (storage, w'), t)
                        ∧ w_gil w' = w_gil w).
  { unfold PythonBridge_ctor, PythonBridge_body, PythonBridge_destroy_members,
      import_attr.
    unfold on_throw, with_gil, finally. unfold bind at 1. unfold in_world at 1.
    rewrite set_python_path_run. run_model.
    rewrite Hload. simpl. rewrite Hconvert. simpl. rewrite Hlocal. simpl.
    rewrite Hcall. simpl. eexists. by split. }
  destruct Hctor as (w' & Hctor & Hgil).
  exists w'. split; [|split; [done|split; [done|split; [done|]]]].
  - unfold PythonBridge_new. rewrite Hbase. fold storage. by rewrite Hctor.
  - unfold PythonBridge_dtor, PythonBridge_destroy_members. run_model.
    by destruct w'.
Qed.

(** C5, as the code has it. After a construction that succeeds, the
    destructor takes the lock, lets go of the coercion helper and then of the
    model, and releases the lock; the two members are released in the order
    in which they were created (helper first, model second). *)
Theorem destruction_order (neuropod_path : string) (options : RuntimeOptions)
    (python_path_additions : list string) (w : World) (loader : Loader)
    (allocator : Allocator) (hl hc hm : py_object) (local_path : string)
    (s1 s2 s3 : py_state) :
  backend_base neuropod_path = Ok (loader, allocator) →
  py_import_attr "neuropod.loader" "load_neuropod" (w_py w) = (Ok hl, s1) →
  py_import_attr "neuropod.utils.dtype_utils" "maybe_convert_bindings_types" s1
    = (Ok hc, s2) →
  ensure_local loader = Ok local_path →
  py_call_path hl local_path s2 = (Ok hm, s3) →
  ∃ w1 construction,
    PythonBridge_new neuropod_path options python_path_additions w
    = (Ok (mkPythonBridge loader allocator (Some hm) (Some hc)), w1, construction)
    ∧ all_locked construction = true
    ∧ filter is_member (created construction)
      = [var_maybe_convert_bindings_types_; var_neuropod_]
    ∧ ∃ w2 destruction,
        PythonBridge_dtor (mkPythonBridge loader allocator (Some hm) (Some hc), w1)
        = (Ok tt, (mkPythonBridge loader allocator None None, w2), destruction)
        ∧ destruction = [GilAcquire;
                         Touch (Drop var_maybe_convert_bindings_types_) true;
                         Touch (Drop var_neuropod_) true;
                         GilRelease]
        ∧ released destruction = filter is_member (created construction).
Proof.
  intros Hbase Hload Hconvert Hlocal Hcall.
  unfold PythonBridge_new. rewrite Hbase.
  unfold PythonBridge_ctor, PythonBridge_body, PythonBridge_destroy_members,
    import_attr.
  unfold on_throw, with_gil, finally. unfold bind at 1. unfold in_world at 1.
  rewrite set_python_path_run. run_model.
  rewrite Hload. simpl. rewrite Hconvert. simpl. rewrite Hlocal. simpl.
  rewrite Hcall. simpl.
  eexists _, _. split; [reflexivity|]. split; [reflexivity|]. split; [reflexivity|].
  unfold PythonBridge_dtor, PythonBridge_destroy_members. run_model.
  eexists _, _. split; [reflexivity|]. by split.
Qed.

(** ** The lock *)

(** The sibling operations take the lock before they touch the interpreter,
    whatever the interpreter answers. *)
Lemma seal_locked (name : string) (item : NeuropodValue)
    (m : SealedPythonValueMap) (w : World) :
  all_locked (trace_of (seal name item (m, w))) = true.
Proof. unfold seal, trace_of, all_locked. run_model. split_cases. Qed.

Lemma SealedPythonValueMap_dtor_locked (m : SealedPythonValueMap) (w : World) :
  all_locked (trace_of (SealedPythonValueMap_dtor (m, w))) = true.
Proof. unfold SealedPythonValueMap_dtor, trace_of, all_locked. run_model. split_cases. Qed.

Lemma PythonBridge_dtor_locked (b : PythonBridge) (w : World) :
  all_locked (trace_of (PythonBridge_dtor (b, w))) = true.
Proof.
  unfold PythonBridge_dtor, PythonBridge_destroy_members, trace_of, all_locked.
  run_model. split_cases.
Qed.

Lemma infer_internal_locked (inputs_orig : SealedValueMap) (b : PythonBridge) (w : World) :
  all_locked (trace_of (infer_internal inputs_orig (b, w))) = true.
Proof.
  unfold infer_internal, get_tensor_allocator, trace_of, all_locked.
  destruct inputs_orig as [inputs|other]; run_model; split_cases.
Qed.

Lemma PythonBridge_body_locked (python_path_additions : list string)
    (b : PythonBridge) (w : World) :
  all_locked (trace_of (PythonBridge_body python_path_additions (b, w))) = true.
Proof.
  unfold PythonBridge_body, import_attr, trace_of, all_locked.
  unfold with_gil, finally. unfold bind at 1. unfold in_world at 1.
  rewrite set_python_path_run. run_model. split_cases.
Qed.

(** Whatever the interpreter raises during inference, the lock is given back
    and the bridge is as it was. *)
Lemma infer_internal_releases (inputs_orig : SealedValueMap) (b b' : PythonBridge)
    (w w' : World) (o : Outcome (gmap string NeuropodValue)) (t : list Event) :
  infer_internal inputs_orig (b, w) = (o, (b', w'), t) →
  (∀ why, o ≠ Fault why) →
  b' = b ∧ w_gil w' = w_gil w ∧ head t = Some GilAcquire ∧ last t = Some GilRelease.
Proof.
  unfold infer_internal, get_tensor_allocator.
  destruct inputs_orig as [inputs|other]; run_model; split_cases;
    intros [= <- <- <- <-] Hfault; try (by exfalso; eapply Hfault); done.
Qed.

(** C1, where the code departs from it. A thread that does not hold the
    GIL and asks the bridge for a sealed map has the dictionary created, and
    a reference to it taken, with the lock not held: [get_sealed_map] and the
    constructor it runs never take the lock. *)
Theorem get_sealed_map_unlocked (b : PythonBridge) (w : World) :
  w_gil w = 0 →
  get_sealed_map (b, w)
  = (Ok (mkSealedPythonValueMap (Some ∅)), (b, w),
     [Touch NewDict false; Touch (Hold var_out) false])
  ∧ all_locked (trace_of (get_sealed_map (b, w))) = false.
Proof.
  intros Hgil. unfold get_sealed_map, SealedPythonValueMap_ctor, trace_of.
  run_model. by rewrite Hgil.
Qed.

(** ** The downcast of the sealed set *)

(** C9. [infer_internal] downcasts its argument without a check. On the
    sealed map of another backend nothing is raised: no exception leaves the
    call, the lock is not taken and the interpreter is not touched; the
    behaviour is undefined. On a map of the bridge's own type, such as the
    one [get_sealed_map] returns, the cast is silent and the call goes on to
    take the lock. *)
Theorem infer_internal_downcast (b : PythonBridge) (w : World) :
  (∀ dynamic_type,
     infer_internal (IsOther dynamic_type) (b, w)
     = (Fault "static_cast to a type the object does not have", (b, w), []))
  ∧ (∀ dynamic_type e, (infer_internal (IsOther dynamic_type) (b, w)).1.1 ≠ Throw e)
  ∧ (∀ m, head (trace_of (infer_internal (IsPython m) (b, w))) = Some GilAcquire)
  ∧ ∃ m t, get_sealed_map (b, w) = (Ok m, (b, w), t)
           ∧ static_cast_SealedPythonValueMap (IsPython m) (b, w) = (Ok m, (b, w), []).
Proof.
  split; [done|]. split; [done|]. split.
  - intros m. unfold infer_internal, get_tensor_allocator, trace_of.
    run_model. split_cases.
  - by eexists _, _.
Qed.

End Properties.

(** * Further properties of the code *)

Section Further.
Context `{External}.

(** ** The search path *)

Lemma c_str_app_c_str (a b : string) : c_str (a +:+ c_str b) = c_str (a +:+ b).
Proof.
  induction a as [|x a IH].
  - apply c_str_idemp.
  - rewrite !append_cons. simpl. destruct (Ascii.eqb x "000"); [done|]. by rewrite IH.
Qed.

Lemma c_str_app_cut (a b : string) : c_str a ≠ a → c_str (a +:+ b) = c_str a.
Proof.
  induction a as [|x a IH]; [done|]. rewrite !append_cons. simpl.
  destruct (Ascii.eqb x "000"); [done|]. intros Hne. f_equal. apply IH. congruence.
Qed.

Lemma colon_terminated_app (first second : list string) :
  colon_terminated (first ++ second)
  = colon_terminated first +:+ colon_terminated second.
Proof.
  induction first as [|dir first IH]; simpl; [done|].
  rewrite IH. by rewrite !append_assoc.
Qed.

(** Two calls in a row do what one call with the second list put before the
    first does, whatever the environment holds and whatever bytes the
    directories have. *)
Theorem set_python_path_compose (first second : list string) (w : World) :
  bind (set_python_path first) (λ _, set_python_path second) w
  = set_python_path (second ++ first) w.
Proof.
  unfold bind. rewrite !set_python_path_run. simpl.
  rewrite lookup_insert_eq. simpl. unfold set_env. simpl.
  rewrite insert_insert_eq, colon_terminated_app, c_str_app_c_str.
  by rewrite append_assoc.
Qed.

(** A directory with a NUL byte inside cuts the written value short: the
    variable holds the directories before it and the bytes of that directory
    up to the NUL; the directories after it and the old value are lost. *)
Theorem set_python_path_nul_cuts (before after : list string) (bad : string) (w : World) :
  Forall (λ dir, nul_free dir) before →
  nul_free bad = false →
  set_python_path (before ++ bad :: after) w
  = (Ok tt, set_env <[PYTHONPATH := colon_terminated before +:+ c_str bad]> w, []).
Proof.
  intros Hbefore Hbad. rewrite set_python_path_run.
  rewrite colon_terminated_app. simpl. rewrite !append_assoc.
  rewrite c_str_app by by apply nul_free_spec, nul_free_colon_terminated.
  rewrite c_str_app_cut; [done|].
  intros Heq. apply nul_free_spec in Heq. by rewrite Hbad in Heq.
Qed.

(** ** Interpreter start-up *)

(** A first initialization that gets past the promotion (or needs none)
    writes the interpreter home exactly when a virtualenv is announced, over
    any value it had, before it starts the interpreter and whether or not the
    interpreter then starts; it writes nothing else to the environment. If
    the interpreter starts, the calling thread is left without the GIL. *)
Theorem maybe_initialize_environment (w w' : World)
    (o : Outcome (option gil_scoped_release)) (t : list Event) :
  w_initialized w = false →
  is_apple = true ∨ is_Some (w_libs w !! PYTHON_LIB_NAME) →
  maybe_initialize w = (o, w', t) →
  w_env w' = home_from_virtualenv (w_env w)
  ∧ w_py w' = w_py w
  ∧ (if py_can_start (home_from_virtualenv (w_env w))
     then o = Ok (Some (mk_gil_scoped_release 1))
          ∧ w_initialized w' = true ∧ w_gil w' = 0
     else (∃ why, o = Fault why) ∧ w_initialized w' = false).
Proof.
  intros Hinit Hpromote Hrun.
  rewrite (maybe_initialize_past_promotion w Hinit Hpromote) in Hrun.
  cbv zeta in Hrun.
  set (w1 := set_env home_from_virtualenv
               (if is_apple then w else set_libs <[PYTHON_LIB_NAME := true]> w)) in Hrun.
  assert (Henv : w_env w1 = home_from_virtualenv (w_env w))
    by (subst w1; by destruct is_apple).
  assert (Hpy : w_py w1 = w_py w) by (subst w1; by destruct is_apple).
  assert (Hinit1 : w_initialized w1 = false) by (subst w1; by destruct is_apple).
  rewrite Henv in Hrun.
  destruct (py_can_start (home_from_virtualenv (w_env w)));
    injection Hrun as <- <- <-; simpl; eauto 10.
Qed.

(** Whenever the initialization returns, a second call changes nothing and
    returns no token: the interpreter is started at most once. *)
Theorem maybe_initialize_twice (w w1 : World) (token : option gil_scoped_release)
    (t : list Event) :
  maybe_initialize w = (Ok token, w1, t) →
  maybe_initialize w1 = (Ok None, w1, []).
Proof.
  assert (Hrunning : ∀ w0, w_initialized w0 = true →
                           maybe_initialize w0 = (Ok None, w0, [])).
  { intros w0 Hw0. unfold maybe_initialize, bind, get_world. simpl. by rewrite Hw0. }
  intros Hrun. apply Hrunning.
  destruct (w_initialized w) eqn:Hinit.
  - rewrite (Hrunning w Hinit) in Hrun. by injection Hrun as <- <- <-.
  - destruct is_apple eqn:Happle.
    + rewrite (maybe_initialize_past_promotion w Hinit (or_introl Happle)) in Hrun.
      simpl in Hrun.
      match type of Hrun with context [py_can_start ?e] => destruct (py_can_start e) end;
        [|done]. by injection Hrun as <- <- <-.
    + destruct (w_libs w !! PYTHON_LIB_NAME) as [g|] eqn:Hlib.
      * rewrite (maybe_initialize_past_promotion w Hinit
                   (or_intror (ex_intro _ g Hlib))) in Hrun.
        simpl in Hrun.
        match type of Hrun with context [py_can_start ?e] => destruct (py_can_start e) end;
          [|done]. by injection Hrun as <- <- <-.
      * unfold maybe_initialize, bind, get_world, dlopen_global_noload in Hrun.
        simpl in Hrun. rewrite Hinit, Happle in Hrun. simpl in Hrun.
        unfold bind, get_world in Hrun. simpl in Hrun. by rewrite Hlib in Hrun.
Qed.

(** On an Apple build no library is looked up or promoted: the
    initialization raises no exception, whatever the state of the process,
    and leaves the loaded libraries alone. *)
Theorem maybe_initialize_apple (w w' : World)
    (o : Outcome (option gil_scoped_release)) (t : list Event) :
  is_apple = true →
  maybe_initialize w = (o, w', t) →
  w_libs w' = w_libs w ∧ t = [] ∧ ∀ e, o ≠ Throw e.
Proof.
  intros Happle.
  destruct (w_initialized w) eqn:Hinit.
  - unfold maybe_initialize, bind, get_world. simpl. rewrite Hinit.
    by intros [= <- <- <-].
  - rewrite (maybe_initialize_past_promotion w Hinit (or_introl Happle)).
    rewrite Happle. simpl.
    match goal with |- context [py_can_start ?e] => destruct (py_can_start e) end;
      by intros [= <- <- <-].
Qed.

(** ** The sealed input set *)

(** A seal that raises, for whatever reason, leaves the set as it was and
    gives the lock back. *)
Theorem seal_failure_keeps_set (name : string) (item : NeuropodValue)
    (m m' : SealedPythonValueMap) (w w' : World) (e : Exception) (t : list Event) :
  seal name item (m, w) = (Throw e, (m', w'), t) →
  m' = m ∧ w_gil w' = w_gil w ∧ w_env w' = w_env w
  ∧ last t = Some GilRelease ∧ all_locked t = true.
Proof.
  unfold seal. run_model. split_cases; by intros [= <- <- <- <-].
Qed.

(** Only the bytes of the name before its first NUL matter: sealing under a
    name and sealing under the name cut there are the same operation. *)
Theorem seal_cuts_name (name : string) (item : NeuropodValue)
    (m : SealedPythonValueMap) (w : World) :
  seal name item (m, w) = seal (c_str name) item (m, w).
Proof. unfold seal. by rewrite c_str_idemp. Qed.

(** Sealing then inferring: after a seal that succeeds, the other entries of
    the set are as before, and an inference on the set calls the model's
    [infer] on exactly that dictionary: what the inference returns is what the
    interpreter answers to that call, coerced and converted. *)
Theorem sealed_value_reaches_model (b : PythonBridge) (inputs : SealedPythonValueMap)
    (w : World) (d raw coerced : py_dict) (name key : string) (item : NeuropodValue)
    (v : ndarray) (model convert infer r1 r2 : py_object)
    (s1 s2 s3 s4 s5 s6 : py_state) (outputs : gmap string NeuropodValue) :
  out inputs = Some d →
  py_str (c_str name) = Ok key →
  tensor_to_numpy (dynamic_pointer_cast item) (w_py w) = (Ok v, s1) →
  neuropod_ b = Some model →
  maybe_convert_bindings_types_ b = Some convert →
  py_attr model "infer" s1 = (Ok infer, s2) →
  py_call_dict infer (<[key := v]> d) s2 = (Ok r1, s3) →
  py_cast_dict r1 s3 = (Ok raw, s4) →
  py_call_dict convert raw s4 = (Ok r2, s5) →
  py_cast_dict r2 s5 = (Ok coerced, s6) →
  from_numpy_dict (allocator_ b) coerced = Ok outputs →
  ∃ d',
    seal name item (inputs, w)
    = (Ok tt, (mkSealedPythonValueMap (Some d'), set_py s1 w),
       [GilAcquire; Touch (ToNumpy item) true; Touch (SetItem key v) true; GilRelease])
    ∧ d' !! key = Some v
    ∧ (∀ other, other ≠ key → d' !! other = d !! other)
    ∧ infer_internal (IsPython (mkSealedPythonValueMap (Some d'))) (b, set_py s1 w)
      = (Ok outputs, (b, set_py s6 w),
         [GilAcquire;
          Touch (CallInfer model d') true;
          Touch (Hold var_model_outputs_raw) true;
          Touch (CallConvert convert raw) true;
          Touch (Hold var_model_outputs) true;
          Touch (FromNumpyDict (allocator_ b) coerced) true;
          Touch (Drop var_model_outputs) true;
          Touch (Drop var_model_outputs_raw) true;
          GilRelease]).
Proof.
  intros Hout Hkey Hconv Hmodel Hconvert Hattr Hcall1 Hcast1 Hcall2 Hcast2 Hfrom.
  exists (<[key := v]> d). split; [|split; [|split]].
  - unfold seal. run_model. rewrite Hconv. simpl. by rewrite Hout, Hkey.
  - apply lookup_insert_eq.
  - intros other Hne. by apply lookup_insert_ne.
  - unfold infer_internal, get_tensor_allocator. run_model.
    rewrite Hmodel. simpl. rewrite Hattr. simpl. rewrite Hcall1. simpl.
    rewrite Hcast1. simpl. rewrite Hconvert. simpl. rewrite Hcall2. simpl.
    rewrite Hcast2. simpl. by rewrite Hfrom.
Qed.

(** The destructor of a sealed set always returns normally: it releases the
    dictionary under the lock if the set still has one, and nothing
    otherwise, so destroying twice releases once. *)
Theorem SealedPythonValueMap_dtor_releases (m : SealedPythonValueMap) (w : World) :
  SealedPythonValueMap_dtor (m, w)
  = (Ok tt, (mkSealedPythonValueMap None, w),
     GilAcquire ::
     match out m with
     | Some _ => [Touch (Drop var_out) true]
     | None => []
     end ++ [GilRelease]).
Proof.
  unfold SealedPythonValueMap_dtor. run_model. destruct w, m as [[d|]]; done.
Qed.

(** A sealed set that is never used for inference, in a thread that holds
    the GIL: what [get_sealed_map] took, the destructor gives back, once, and
    every interpreter operation of the two was under the lock. *)
Theorem sealed_map_unused (b : PythonBridge) (w : World) :
  0 < w_gil w →
  ∃ m t1 t2,
    get_sealed_map (b, w) = (Ok m, (b, w), t1)
    ∧ SealedPythonValueMap_dtor (m, w) = (Ok tt, (mkSealedPythonValueMap None, w), t2)
    ∧ created (t1 ++ t2) = [var_out] ∧ released (t1 ++ t2) = [var_out]
    ∧ owners (t1 ++ t2) [] = Some []
    ∧ all_locked (t1 ++ t2) = true.
Proof.
  intros Hgil.
  exists (mkSealedPythonValueMap (Some ∅)),
    [Touch NewDict true; Touch (Hold var_out) true],
    [GilAcquire; Touch (Drop var_out) true; GilRelease].
  split; [|split; [|done]].
  - unfold get_sealed_map, SealedPythonValueMap_ctor. run_model.
    destruct (w_gil w); [lia|done].
  - unfold SealedPythonValueMap_dtor. run_model. by destruct w.
Qed.

(** ** Inference that raises *)

(** When the model's [infer] raises, the exception reaches the caller, the
    coercion helper and the conversion are never reached, no dictionary is
    held, and the lock is given back. *)
Theorem infer_model_raises (b : PythonBridge) (inputs : SealedPythonValueMap)
    (w : World) (sealed : py_dict) (model infer : py_object) (e : Exception)
    (s1 s2 : py_state) :
  out inputs = Some sealed →
  neuropod_ b = Some model →
  py_attr model "infer" (w_py w) = (Ok infer, s1) →
  py_call_dict infer sealed s1 = (Throw e, s2) →
  infer_internal (IsPython inputs) (b, w)
  = (Throw e, (b, set_py s2 w),
     [GilAcquire; Touch (CallInfer model sealed) true; GilRelease]).
Proof.
  intros Hin Hmodel Hattr Hcall. unfold infer_internal. run_model.
  rewrite Hin, Hmodel. simpl. rewrite Hattr. simpl. by rewrite Hcall.
Qed.

(** When the coercion helper raises, the raw output dictionary is let go
    while the lock is still held, then the lock is given back and the
    exception reaches the caller; nothing is converted. *)
Theorem infer_coercion_raises (b : PythonBridge) (inputs : SealedPythonValueMap)
    (w : World) (sealed raw : py_dict) (model convert infer r1 : py_object)
    (e : Exception) (s1 s2 s3 s4 : py_state) :
  out inputs = Some sealed →
  neuropod_ b = Some model →
  maybe_convert_bindings_types_ b = Some convert →
  py_attr model "infer" (w_py w) = (Ok infer, s1) →
  py_call_dict infer sealed s1 = (Ok r1, s2) →
  py_cast_dict r1 s2 = (Ok raw, s3) →
  py_call_dict convert raw s3 = (Throw e, s4) →
  infer_internal (IsPython inputs) (b, w)
  = (Throw e, (b, set_py s4 w),
     [GilAcquire;
      Touch (CallInfer model sealed) true;
      Touch (Hold var_model_outputs_raw) true;
      Touch (CallConvert convert raw) true;
      Touch (Drop var_model_outputs_raw) true;
      GilRelease]).
Proof.
  intros Hin Hmodel Hconvert Hattr Hcall1 Hcast1 Hcall2.
  unfold infer_internal. run_model.
  rewrite Hin, Hmodel. simpl. rewrite Hattr. simpl. rewrite Hcall1. simpl.
  rewrite Hcast1. simpl. rewrite Hconvert. simpl. by rewrite Hcall2.
Qed.

(** ** Construction and destruction, for every answer of the interpreter *)

(** Once the base class is initialised, the search path is rewritten
    whether or not the construction succeeds. A construction that returns
    holds exactly its two members, touched the interpreter only under the
    lock and gave the lock back; a construction that raises holds nothing and
    gave the lock back as well. (A fault can only come from a collaborator
    that faults.) *)
Theorem construction_outcomes (neuropod_path : string) (options : RuntimeOptions)
    (python_path_additions : list string) (w : World) (loader : Loader)
    (allocator : Allocator) :
  backend_base neuropod_path = Ok (loader, allocator) →
  let '(o, w', t) := PythonBridge_new neuropod_path options python_path_additions w in
  w_env w' = w_env (set_python_path python_path_additions w).1.2
  ∧ match o with
    | Ok b => is_Some (neuropod_ b) ∧ is_Some (maybe_convert_bindings_types_ b)
              ∧ owners t [] = Some [var_neuropod_; var_maybe_convert_bindings_types_]
              ∧ all_locked t = true
              ∧ w_gil w' = w_gil w
    | Throw _ => owners t [] = Some [] ∧ w_gil w' = w_gil w
    | Fault _ => True
    end.
Proof.
  intros Hbase. unfold PythonBridge_new. rewrite Hbase.
  unfold PythonBridge_ctor, PythonBridge_body, PythonBridge_destroy_members, import_attr.
  unfold on_throw, with_gil, finally. unfold bind at 1. unfold in_world at 1.
  rewrite set_python_path_run. run_model. split_cases; by eauto 10.
Qed.

(** When the loader cannot make the model local, in a thread that does not
    hold the GIL, the coercion helper taken just before is released by the
    unwinding after the scoped lock is gone. *)
Theorem construction_unwinding_unlocked (neuropod_path : string)
    (options : RuntimeOptions) (python_path_additions : list string) (w : World)
    (loader : Loader) (allocator : Allocator) (hl hc : py_object)
    (e : Exception) (s1 s2 : py_state) :
  w_gil w = 0 →
  backend_base neuropod_path = Ok (loader, allocator) →
  py_import_attr "neuropod.loader" "load_neuropod" (w_py w) = (Ok hl, s1) →
  py_import_attr "neuropod.utils.dtype_utils" "maybe_convert_bindings_types" s1
    = (Ok hc, s2) →
  ensure_local loader = Throw e →
  ∃ w',
    PythonBridge_new neuropod_path options python_path_additions w
    = (Throw e, w',
       [GilAcquire;
        Touch (ImportAttr "neuropod.loader" "load_neuropod") true;
        Touch (Hold var_load_neuropod) true;
        Touch (ImportAttr "neuropod.utils.dtype_utils" "maybe_convert_bindings_types") true;
        Touch (Hold var_maybe_convert_bindings_types_) true;
        Touch (Drop var_load_neuropod) true;
        GilRelease;
        Touch (Drop var_maybe_convert_bindings_types_) false])
    ∧ all_locked (trace_of
        (PythonBridge_new neuropod_path options python_path_additions w)) = false.
Proof.
  intros Hgil Hbase Hload Hconvert Hlocal.
  unfold PythonBridge_new, trace_of. rewrite Hbase.
  unfold PythonBridge_ctor, PythonBridge_body, PythonBridge_destroy_members, import_attr.
  unfold on_throw, with_gil, finally. unfold bind at 1. unfold in_world at 1.
  rewrite set_python_path_run. run_model.
  rewrite Hload. simpl. rewrite Hconvert. simpl. rewrite Hlocal. simpl.
  rewrite Hgil. eexists. by split.
Qed.

(** The destructor of a bridge always returns normally: under the lock it
    releases the coercion helper if it is set, then the model if it is set,
    and leaves both members null, so a second destruction releases nothing. *)
Theorem PythonBridge_dtor_releases (b : PythonBridge) (w : World) :
  PythonBridge_dtor (b, w)
  = (Ok tt, (mkPythonBridge (loader_ b) (allocator_ b) None None, w),
     GilAcquire ::
     match maybe_convert_bindings_types_ b with
     | Some _ => [Touch (Drop var_maybe_convert_bindings_types_) true]
     | None => []
     end ++
     match neuropod_ b with
     | Some _ => [Touch (Drop var_neuropod_) true]
     | None => []
     end ++ [GilRelease]).
Proof.
  unfold PythonBridge_dtor, PythonBridge_destroy_members. run_model.
  destruct w, b as [loader allocator [model|] [convert|]]; done.
Qed.

(** A bridge that was built and is then destroyed: every reference taken
    during construction has been given up, once, by the end of the
    destruction, and the lock is as the caller had it. *)
Theorem bridge_lifecycle (neuropod_path : string) (options : RuntimeOptions)
    (python_path_additions : list string) (w w1 : World) (b : PythonBridge)
    (construction : list Event) :
  PythonBridge_new neuropod_path options python_path_additions w
    = (Ok b, w1, construction) →
  ∃ b' destruction,
    PythonBridge_dtor (b, w1) = (Ok tt, (b', w1), destruction)
    ∧ neuropod_ b' = None ∧ maybe_convert_bindings_types_ b' = None
    ∧ owners (construction ++ destruction) [] = Some []
    ∧ all_locked (construction ++ destruction) = true
    ∧ w_gil w1 = w_gil w.
Proof.
  unfold PythonBridge_new.
  destruct (backend_base neuropod_path) as [[loader allocator]| |]; [|done..].
  unfold PythonBridge_ctor, PythonBridge_body, PythonBridge_destroy_members, import_attr.
  unfold on_throw, with_gil, finally. unfold bind at 1. unfold in_world at 1.
  rewrite set_python_path_run. run_model.
  split_cases; intros [= <- <- <-];
    unfold PythonBridge_dtor, PythonBridge_destroy_members; run_model;
    eexists _, _; (split; [reflexivity|]); done.
Qed.

(** ** The lock, when the caller already holds it *)

(** In a thread that holds the GIL (a host that runs inside the
    interpreter), [get_sealed_map] creates its dictionary under the lock. *)
Theorem get_sealed_map_hosted (b : PythonBridge) (w : World) :
  0 < w_gil w →
  get_sealed_map (b, w)
  = (Ok (mkSealedPythonValueMap (Some ∅)), (b, w),
     [Touch NewDict true; Touch (Hold var_out) true]).
Proof.
  intros Hgil. unfold get_sealed_map, SealedPythonValueMap_ctor. run_model.
  destruct (w_gil w); [lia|done].
Qed.

End Further.

(** * The properties on the concrete interpreter *)

#[local] Existing Instance Demo.external.

Lemma set_python_path_twice_witness :
  bind (set_python_path ["/a"; "/b"]%string) (λ _, set_python_path ["/c"]%string)
    Demo.hosted
  = (Ok tt, set_env <["PYTHONPATH"%string := "/c:/a:/b:/usr/lib/python"%string]> Demo.hosted, []).
Proof.
  apply (set_python_path_twice Demo.hosted "/usr/lib/python" ["/a"; "/b"]%string ["/c"]%string).
  - reflexivity.
  - exact I.
  - repeat constructor.
  - repeat constructor.
Defined.

Lemma set_python_path_unset_witness :
  set_python_path ["/a"; "/b"]%string Demo.fresh
  = (Ok tt, set_env <["PYTHONPATH"%string := "/a:/b:"%string]> Demo.fresh, []).
Proof.
  apply (set_python_path_unset Demo.fresh ["/a"; "/b"]%string).
  - reflexivity.
  - repeat constructor.
Defined.

Lemma maybe_initialize_running_witness :
  maybe_initialize Demo.hosted = (Ok None, Demo.hosted, []).
Proof. apply (maybe_initialize_running Demo.hosted). reflexivity. Defined.

Lemma seal_same_name_twice_witness :
  bind (seal "x" 1) (λ _, seal "x" 2) (Demo.inputs, Demo.started)
  = (Ok tt, (mkSealedPythonValueMap (Some {["x"%string := 2]}), Demo.started),
     [GilAcquire; Touch (ToNumpy 1) true;
      Touch (SetItem "x" 1) true; GilRelease;
      GilAcquire; Touch (ToNumpy 2) true;
      Touch (SetItem "x" 2) true; GilRelease]).
Proof.
  destruct (seal_same_name_twice Demo.inputs Demo.started {["x"%string := 1]}
              "x" "x" 1 2 1 2 0 0 eq_refl eq_refl eq_refl eq_refl) as [Hrun _].
  exact Hrun.
Defined.

Lemma infer_internal_steps_witness :
  infer_internal (IsPython Demo.inputs) (Demo.bridge, Demo.started)
  = (Ok {["x"%string := 2]}, (Demo.bridge, set_py 3 Demo.started),
     [GilAcquire;
      Touch (CallInfer (Demo.Named "model:/models/addition") {["x"%string := 1]}) true;
      Touch (Hold var_model_outputs_raw) true;
      Touch (CallConvert
               (Demo.Named "neuropod.utils.dtype_utils.maybe_convert_bindings_types")
               {["x"%string := 2]}) true;
      Touch (Hold var_model_outputs) true;
      Touch (FromNumpyDict tt {["x"%string := 2]}) true;
      Touch (Drop var_model_outputs) true;
      Touch (Drop var_model_outputs_raw) true;
      GilRelease]).
Proof.
  refine (proj1 (infer_internal_steps Demo.bridge Demo.inputs Demo.started
           {["x"%string := 1]} {["x"%string := 2]} {["x"%string := 2]}
           (Demo.Named "model:/models/addition")
           (Demo.Named "neuropod.utils.dtype_utils.maybe_convert_bindings_types")
           (Demo.Named "model:/models/addition.infer")
           (Demo.Dict {["x"%string := 2]}) (Demo.Dict {["x"%string := 2]})
           1 2 2 3 3 {["x"%string := 2]} _ _ _ _ _ _ _ _ _));
    vm_compute; reflexivity.
Defined.

Lemma construction_load_failure_witness :
  ∃ w', PythonBridge_new "/models/missing" tt ["/extra"%string] Demo.started
        = (Throw (PythonError "ValueError: not a neuropod"), w',
           [GilAcquire;
            Touch (ImportAttr "neuropod.loader" "load_neuropod") true;
            Touch (Hold var_load_neuropod) true;
            Touch (ImportAttr "neuropod.utils.dtype_utils" "maybe_convert_bindings_types") true;
            Touch (Hold var_maybe_convert_bindings_types_) true;
            Touch (CallLoad (Demo.Named "neuropod.loader.load_neuropod") "/models/missing") true;
            Touch (Drop var_load_neuropod) true;
            GilRelease;
            Touch (Drop var_maybe_convert_bindings_types_) false])
        ∧ PythonBridge_dtor (mkPythonBridge "/models/missing" tt None None, w')
          = (Ok tt, (mkPythonBridge "/models/missing" tt None None, w'),
             [GilAcquire; GilRelease]).
Proof.
  destruct (construction_load_failure (H:=Demo.external)
              "/models/missing" tt ["/extra"%string]
              Demo.started "/models/missing" tt
              (Demo.Named "neuropod.loader.load_neuropod")
              (Demo.Named "neuropod.utils.dtype_utils.maybe_convert_bindings_types")
              "/models/missing" (PythonError "ValueError: not a neuropod") 1 2 3
              eq_refl eq_refl eq_refl eq_refl eq_refl)
    as (w' & Hnew & _ & _ & _ & Hdtor).
  exists w'. split; [exact Hnew | exact Hdtor].
Defined.

(** The members of the demonstration bridge are created helper first, model
    second, and released in that same order: the release order is not the
    reverse of the creation order. *)
Lemma destruction_order_not_reversed :
  filter is_member (created Demo.construction_trace)
    = [var_maybe_convert_bindings_types_; var_neuropod_]
  ∧ released Demo.destruction_trace
    = [var_maybe_convert_bindings_types_; var_neuropod_]
  ∧ ¬ releases_in_reverse_of_creation Demo.construction_trace Demo.destruction_trace.
Proof.
  split; [by vm_compute|]. split; [by vm_compute|].
  unfold releases_in_reverse_of_creation. vm_compute. intros [=].
Qed.

Lemma destruction_order_witness :
  ∃ w1 construction,
    PythonBridge_new "/models/addition" tt [] Demo.started
    = (Ok Demo.bridge, w1, construction)
    ∧ filter is_member (created construction)
      = [var_maybe_convert_bindings_types_; var_neuropod_]
    ∧ ∃ w2 destruction,
        PythonBridge_dtor (Demo.bridge, w1)
        = (Ok tt, (mkPythonBridge "/models/addition" tt None None, w2), destruction)
        ∧ released destruction = [var_maybe_convert_bindings_types_; var_neuropod_].
Proof.
  destruct (destruction_order (H:=Demo.external) "/models/addition" tt [] Demo.started
              "/models/addition" tt
              (Demo.Named "neuropod.loader.load_neuropod")
              (Demo.Named "neuropod.utils.dtype_utils.maybe_convert_bindings_types")
              (Demo.Named "model:/models/addition")
              "/models/addition" 1 2 3
              eq_refl eq_refl eq_refl eq_refl eq_refl)
    as (w1 & construction & Hnew & _ & Hcreated & w2 & destruction & Hdtor & _ & Hsame).
  exists w1, construction. split; [exact Hnew|]. split; [exact Hcreated|].
  exists w2, destruction. split; [exact Hdtor|].
  rewrite Hsame. exact Hcreated.
Defined.

(** The failing input of C1: the started native process asks for a sealed
    map. *)
Lemma get_sealed_map_unlocked_witness :
  get_sealed_map (Demo.bridge, Demo.started)
  = (Ok (mkSealedPythonValueMap (Some ∅)), (Demo.bridge, Demo.started),
     [Touch NewDict false; Touch (Hold var_out) false]).
Proof.
  refine (proj1 (get_sealed_map_unlocked Demo.bridge Demo.started _)). reflexivity.
Defined.

(** The claim of C8 fails where the virtualenv holds no Python: the
    promotion succeeds, the interpreter home is written, and the process ends
    in the start of the interpreter. *)
Lemma maybe_initialize_stopped_past_promotion :
  w_libs Demo.misconfigured !! PYTHON_LIB_NAME = Some false
  ∧ maybe_initialize Demo.misconfigured
    = (Fault "Py_InitializeEx: fatal error, the interpreter cannot start",
       mkWorld {["VIRTUAL_ENV"%string := "/tmp/gone"%string;
                 "PYTHONHOME"%string := "/tmp/gone"%string]}
         {["libpython2.7.so"%string := true]} "" false 0 0,
       [])
  ∧ ¬ promotion_is_the_only_stop Demo.misconfigured.
Proof.
  split; [by vm_compute|]. split; [by vm_compute|].
  intros Hstop.
  destruct (Hstop eq_refl (ex_intro _ false eq_refl)) as (token & w' & t & Hrun).
  vm_compute in Hrun. discriminate.
Qed.

Lemma maybe_initialize_promotion_witness :
  maybe_initialize Demo.unlinked
  = (Throw (promotion_failure "libpython2.7.so: cannot open shared object file"),
     Demo.unlinked, []).
Proof.
  refine (proj1 (proj1 (maybe_initialize_promotion Demo.unlinked _ _) _));
    reflexivity.
Defined.

(** * The further properties on the concrete interpreters *)

Lemma set_python_path_nul_cuts_witness :
  set_python_path ["/a"; "/b" +:+ String "000" "c"; "/d"]%string Demo.hosted
  = (Ok tt, set_env <["PYTHONPATH"%string := "/a:/b"%string]> Demo.hosted, []).
Proof.
  refine (set_python_path_nul_cuts (H:=Demo.external) ["/a"%string] ["/d"%string]
            ("/b" +:+ String "000" "c") Demo.hosted _ _).
  - repeat constructor.
  - reflexivity.
Defined.

Lemma maybe_initialize_environment_witness :
  w_env (maybe_initialize Mac.fresh).1.2
  = {["VIRTUAL_ENV"%string := "/venv"%string; "PYTHONHOME"%string := "/venv"%string]}.
Proof.
  destruct (maybe_initialize_environment Mac.fresh (maybe_initialize Mac.fresh).1.2
              (maybe_initialize Mac.fresh).1.1 (maybe_initialize Mac.fresh).2
              eq_refl (or_introl eq_refl) eq_refl) as (Henv & _).
  rewrite Henv. by vm_compute.
Defined.

Lemma maybe_initialize_twice_witness :
  maybe_initialize Demo.started = (Ok None, Demo.started, []).
Proof.
  refine (maybe_initialize_twice Demo.fresh Demo.started
            (Some (mk_gil_scoped_release 1)) [] _).
  reflexivity.
Defined.

Lemma maybe_initialize_apple_witness :
  w_libs (maybe_initialize Mac.fresh).1.2 = ∅.
Proof.
  refine (proj1 (maybe_initialize_apple Mac.fresh (maybe_initialize Mac.fresh).1.2
                   (maybe_initialize Mac.fresh).1.1 (maybe_initialize Mac.fresh).2
                   eq_refl eq_refl)).
Defined.

Lemma infer_internal_releases_witness :
  w_gil (infer_internal (IsPython Demo.inputs) (Demo.bridge_without_infer, Demo.started)).1.2.2
  = w_gil Demo.started.
Proof.
  refine (proj1 (proj2 (infer_internal_releases (IsPython Demo.inputs) Demo.bridge_without_infer _
            Demo.started _ (Throw (PythonError "TypeError: object is not callable"))
            _ _ _))).
  - reflexivity.
  - intros why. discriminate.
Defined.

Lemma seal_failure_keeps_set_witness :
  (seal (H:=Mac.external) "y" None (Mac.inputs, Mac.started)).1.2.1 = Mac.inputs.
Proof.
  refine (proj1 (seal_failure_keeps_set (H:=Mac.external) "y" None Mac.inputs _
            Mac.started _ (RuntimeError "not a tensor") _ _)).
  reflexivity.
Defined.

Lemma sealed_value_reaches_model_witness :
  infer_internal (IsPython (mkSealedPythonValueMap (Some {["x"%string := 1; "y"%string := 5]})))
    (Demo.bridge, Demo.started)
  = (Ok {["x"%string := 2; "y"%string := 6]}, (Demo.bridge, set_py 3 Demo.started),
     [GilAcquire;
      Touch (CallInfer (Demo.Named "model:/models/addition")
               {["x"%string := 1; "y"%string := 5]}) true;
      Touch (Hold var_model_outputs_raw) true;
      Touch (CallConvert
               (Demo.Named "neuropod.utils.dtype_utils.maybe_convert_bindings_types")
               {["x"%string := 2; "y"%string := 6]}) true;
      Touch (Hold var_model_outputs) true;
      Touch (FromNumpyDict tt {["x"%string := 2; "y"%string := 6]}) true;
      Touch (Drop var_model_outputs) true;
      Touch (Drop var_model_outputs_raw) true;
      GilRelease]).
Proof.
  destruct (sealed_value_reaches_model Demo.bridge Demo.inputs Demo.started
              {["x"%string := 1]} {["x"%string := 2; "y"%string := 6]}
              {["x"%string := 2; "y"%string := 6]} "y" "y" 5 5
              (Demo.Named "model:/models/addition")
              (Demo.Named "neuropod.utils.dtype_utils.maybe_convert_bindings_types")
              (Demo.Named "model:/models/addition.infer")
              (Demo.Dict {["x"%string := 2; "y"%string := 6]})
              (Demo.Dict {["x"%string := 2; "y"%string := 6]})
              0 1 2 2 3 3 {["x"%string := 2; "y"%string := 6]}
              ltac:(by vm_compute) ltac:(by vm_compute) ltac:(by vm_compute)
              ltac:(by vm_compute) ltac:(by vm_compute) ltac:(by vm_compute)
              ltac:(by vm_compute) ltac:(by vm_compute) ltac:(by vm_compute)
              ltac:(by vm_compute) ltac:(by vm_compute))
    as (d' & Hseal & _ & _ & Hinfer).
  injection Hseal as <-. exact Hinfer.
Defined.

Lemma infer_model_raises_witness :
  infer_internal (IsPython Demo.inputs) (Demo.bridge_without_infer, Demo.started)
  = (Throw (PythonError "TypeError: object is not callable"),
     (Demo.bridge_without_infer, set_py 2 Demo.started),
     [GilAcquire;
      Touch (CallInfer (Demo.Named "model:/models/other") {["x"%string := 1]}) true;
      GilRelease]).
Proof.
  refine (infer_model_raises Demo.bridge_without_infer Demo.inputs Demo.started
            {["x"%string := 1]} (Demo.Named "model:/models/other")
            (Demo.Named "model:/models/other.infer")
            (PythonError "TypeError: object is not callable") 1 2 _ _ _ _);
    reflexivity.
Defined.

Lemma infer_coercion_raises_witness :
  infer_internal (IsPython Demo.inputs) (Demo.bridge_without_helper, Demo.started)
  = (Throw (PythonError "TypeError: object is not callable"),
     (Demo.bridge_without_helper, set_py 3 Demo.started),
     [GilAcquire;
      Touch (CallInfer (Demo.Named "model:/models/addition") {["x"%string := 1]}) true;
      Touch (Hold var_model_outputs_raw) true;
      Touch (CallConvert (Demo.Named "neuropod.utils.dtype_utils.missing")
               {["x"%string := 2]}) true;
      Touch (Drop var_model_outputs_raw) true;
      GilRelease]).
Proof.
  refine (infer_coercion_raises Demo.bridge_without_helper Demo.inputs Demo.started
            {["x"%string := 1]} {["x"%string := 2]}
            (Demo.Named "model:/models/addition")
            (Demo.Named "neuropod.utils.dtype_utils.missing")
            (Demo.Named "model:/models/addition.infer")
            (Demo.Dict {["x"%string := 2]})
            (PythonError "TypeError: object is not callable") 1 2 2 3 _ _ _ _ _ _ _);
    vm_compute; reflexivity.
Defined.

Lemma construction_outcomes_witness :
  owners Demo.construction_trace [] = Some [var_neuropod_; var_maybe_convert_bindings_types_]
  ∧ owners (trace_of (PythonBridge_new "/models/missing" tt [] Demo.started)) [] = Some [].
Proof.
  split.
  - pose proof (construction_outcomes (H:=Demo.external) "/models/addition" tt []
                  Demo.started "/models/addition" tt eq_refl) as Hc.
    vm_compute in Hc. destruct Hc as (_ & _ & _ & Howners & _).
    vm_compute. exact Howners.
  - pose proof (construction_outcomes (H:=Demo.external) "/models/missing" tt []
                  Demo.started "/models/missing" tt eq_refl) as Hc.
    vm_compute in Hc. destruct Hc as (_ & Howners & _).
    vm_compute. exact Howners.
Defined.

Lemma construction_unwinding_unlocked_witness :
  all_locked (trace_of (PythonBridge_new (H:=Mac.external)
                          "s3://bucket/model" tt [] Mac.started)) = false.
Proof.
  destruct (construction_unwinding_unlocked (H:=Mac.external) "s3://bucket/model" tt []
              Mac.started "s3://bucket/model" tt
              (Demo.Named "neuropod.loader.load_neuropod")
              (Demo.Named "neuropod.utils.dtype_utils.maybe_convert_bindings_types")
              (RuntimeError "download failed") 1 2
              eq_refl eq_refl eq_refl eq_refl eq_refl) as (w' & _ & Hunlocked).
  exact Hunlocked.
Defined.

Lemma get_sealed_map_hosted_witness :
  get_sealed_map (Demo.bridge, Demo.hosted)
  = (Ok (mkSealedPythonValueMap (Some ∅)), (Demo.bridge, Demo.hosted),
     [Touch NewDict true; Touch (Hold var_out) true]).
Proof.
  refine (get_sealed_map_hosted Demo.bridge Demo.hosted _). simpl. lia.
Defined.

Lemma bridge_lifecycle_witness :
  ∃ b' destruction,
    PythonBridge_dtor (Demo.bridge, Demo.construction.1.2)
    = (Ok tt, (b', Demo.construction.1.2), destruction)
    ∧ owners (Demo.construction_trace ++ destruction) [] = Some [].
Proof.
  destruct (bridge_lifecycle (H:=Demo.external) "/models/addition" tt [] Demo.started
              Demo.construction.1.2 Demo.bridge Demo.construction_trace eq_refl)
    as (b' & destruction & Hdtor & _ & _ & Howners & _).
  exists b', destruction. split; [exact Hdtor | exact Howners].
Defined.

Lemma sealed_map_unused_witness :
  ∃ m t1 t2,
    get_sealed_map (Demo.bridge, Demo.hosted) = (Ok m, (Demo.bridge, Demo.hosted), t1)
    ∧ SealedPythonValueMap_dtor (m, Demo.hosted)
      = (Ok tt, (mkSealedPythonValueMap None, Demo.hosted), t2)
    ∧ owners (t1 ++ t2) [] = Some [] ∧ all_locked (t1 ++ t2) = true.
Proof.
  destruct (sealed_map_unused Demo.bridge Demo.hosted ltac:(simpl; lia))
    as (m & t1 & t2 & Hget & Hdtor & _ & _ & Howners & Hlocked).
  by exists m, t1, t2.
Defined.
